(** * ThinkDeeper: the reasoning-length-enforcing decode loop of optillm

    A shallow embedding of the two implementations of [ThinkDeeperProcessor]:

    - [Sim]: [optillm/thinkdeeper.py], the simulated, word-counting variant
      driven by Python's [random] module;
    - [Plugin]: [optillm/plugins/thinkdeeper_plugin.py], the token-id
      variant driven by a tokenizer and a causal language model.

    Python integers are [Z]; a [str] is a [string], one [ascii] per
    character for text within ASCII (the one literal of the source outside
    it is kept as its UTF-8 bytes; only its word count is used); lists are
    lists, a [dict] with string keys used as a map is a [gmap].
    Exceptions are values of [exn] carried by [result].  The two sources of
    non-determinism (Python's [random] and the sampled model output) are
    explicit oracles, so that a theorem quantified over them speaks about
    every behaviour.  [while True] loops take a fuel argument that counts
    iterations; [None] means that the fuel ran out before the loop exited. *)

From Stdlib Require Import ZArith Lia Ascii String List.
From stdpp Require Import base option list strings gmap.

Local Open Scope Z_scope.

(** ** Exceptions and results *)

Inductive exn :=
| IndexError (msg : string)
| ValueError (msg : string)
| BackendError (msg : string).

(** [str(e)] *)
Definition str_exn (e : exn) : string :=
  match e with
  | IndexError m | ValueError m | BackendError m => m
  end.

Inductive result (A : Type) :=
| Ok (a : A)
| Raise (e : exn).
Arguments Ok {A} a.
Arguments Raise {A} e.

Global Instance result_ret : MRet result := fun _ a => Ok a.
Global Instance result_bind : MBind result := fun _ _ f m =>
  match m with
  | Ok a => f a
  | Raise e => Raise e
  end.

Global Instance result_fmap : FMap result := fun _ _ f m =>
  match m with
  | Ok a => Ok (f a)
  | Raise e => Raise e
  end.

(** ** Strings as Python uses them *)

Module Str.

(** [str.isspace] on the characters below 128: tab, LF, VT, FF, CR, the
    four separators FS, GS, RS, US and the blank. *)
Definition isspace (c : ascii) : bool :=
  let n := nat_of_ascii c in
  (((9 <=? n) && (n <=? 13)) || ((28 <=? n) && (n <=? 32)))%nat.

(** [s.split()]: the maximal runs of non-blank characters, in order. *)
Definition word (cur : string) : list string :=
  match cur with
  | EmptyString => []
  | _ => [cur]
  end.

Fixpoint split_go (cur : string) (s : string) : list string :=
  match s with
  | EmptyString => word cur
  | String c s' =>
      if isspace c
      then word cur ++ split_go "" s'
      else split_go (cur +:+ String c "") s'
  end.
Definition split (s : string) : list string := split_go "" s.

(** [sep.join(l)] *)
Fixpoint join (sep : string) (l : list string) : string :=
  match l with
  | [] => ""
  | [x] => x
  | x :: xs => x +:+ sep +:+ join sep xs
  end.

Fixpoint lstrip (s : string) : string :=
  match s with
  | EmptyString => ""
  | String c s' => if isspace c then lstrip s' else s
  end.

Fixpoint rstrip (s : string) : string :=
  match s with
  | EmptyString => ""
  | String c s' =>
      match rstrip s' with
      | EmptyString => if isspace c then "" else String c ""
      | r => String c r
      end
  end.

(** [s.strip()] *)
Definition strip (s : string) : string := rstrip (lstrip s).

(** [s[k:]] for [k >= 0] *)
Fixpoint slice_from (k : nat) (s : string) : string :=
  match k, s with
  | O, _ => s
  | S _, EmptyString => ""
  | S k', String _ s' => slice_from k' s'
  end.

(** [s.startswith(p)] *)
Fixpoint startswith (p s : string) : bool :=
  match p, s with
  | EmptyString, _ => true
  | String a p', String b s' => if Ascii.eqb a b then startswith p' s' else false
  | String _ _, EmptyString => false
  end.

(** [p in s] *)
Fixpoint contains (p s : string) : bool :=
  startswith p s ||
  match s with
  | EmptyString => false
  | String _ s' => contains p s'
  end.

End Str.

(** ** Python's [random] module as an oracle

    The generator is a stream of raw draws and a read position: each call
    of [random.random] or [random.choice] consumes one draw. *)

Module Random.

Record rng := Rng { draws : nat -> Z; pos : nat }.

Definition next_draw (g : rng) : Z * rng :=
  (draws g (pos g), Rng (draws g) (S (pos g))).

(** [random.random()] returns [k / 2^53] for an integer [0 <= k < 2^53];
    the model returns [k]. *)
Definition random (g : rng) : Z * rng :=
  let (d, g') := next_draw g in (d mod 2 ^ 53, g').

(** [k / 2^53 < 0.3]: the double nearest to 0.3 is
    [5404319552844595 / 2^54]. *)
Definition lt_0_3 (k : Z) : bool := 2 * k <? 5404319552844595.

(** [k / 2^53 < 0.1]: the double nearest to 0.1 is
    [3602879701896397 / 2^55]. *)
Definition lt_0_1 (k : Z) : bool := 4 * k <? 3602879701896397.

(** [random.choice(l)]: an element at a drawn index, [IndexError] on an
    empty sequence. *)
Definition choice {A} (l : list A) (g : rng) : result (A * rng) :=
  match l with
  | [] => Raise (IndexError "Cannot choose from an empty sequence")
  | x :: _ =>
      let (d, g') := next_draw g in
      Ok (nth (Z.to_nat (d mod Z.of_nat (length l))) l x, g')
  end.

Global Arguments choice : simpl never.
Global Arguments random : simpl never.

End Random.

(** ** The simulated variant: [optillm/thinkdeeper.py] *)

Module Sim.
Import Random.

(** The configuration dictionary, one field per key of [DEFAULT_CONFIG]. *)
Record Config := {
  min_thinking_tokens : Z;
  max_thinking_tokens : Z;
  max_thoughts : Z;
  prefill : string;
  start_think_token : string;
  end_think_token : string;
  thought_switch_tokens : list string;
}.

Definition DEFAULT_CONFIG : Config := {|
  min_thinking_tokens := 1024;
  max_thinking_tokens := 4196;
  max_thoughts := 64;
  prefill := "";
  start_think_token := "<think>";
  end_think_token := "</think>";
  thought_switch_tokens := ["Wait,"; "Alternatively,"];
|}.

(** A request's configuration: each recognised key is present or not. *)
Record RequestConfig := {
  rq_min_thinking_tokens : option Z;
  rq_max_thinking_tokens : option Z;
  rq_max_thoughts : option Z;
  rq_prefill : option string;
  rq_start_think_token : option string;
  rq_end_think_token : option string;
  rq_thought_switch_tokens : option (list string);
}.

(** [config = DEFAULT_CONFIG.copy()], then every key of [DEFAULT_CONFIG]
    found in [request_config] overrides the default. *)
Definition resolve_config (request_config : option RequestConfig) : Config :=
  match request_config with
  | None => DEFAULT_CONFIG
  | Some rq => {|
      min_thinking_tokens :=
        default (min_thinking_tokens DEFAULT_CONFIG) (rq_min_thinking_tokens rq);
      max_thinking_tokens :=
        default (max_thinking_tokens DEFAULT_CONFIG) (rq_max_thinking_tokens rq);
      max_thoughts := default (max_thoughts DEFAULT_CONFIG) (rq_max_thoughts rq);
      prefill := default (prefill DEFAULT_CONFIG) (rq_prefill rq);
      start_think_token :=
        default (start_think_token DEFAULT_CONFIG) (rq_start_think_token rq);
      end_think_token :=
        default (end_think_token DEFAULT_CONFIG) (rq_end_think_token rq);
      thought_switch_tokens :=
        default (thought_switch_tokens DEFAULT_CONFIG) (rq_thought_switch_tokens rq);
    |}
  end.

(** The attributes of a [ThinkDeeperProcessor] instance. *)
Record ThinkDeeperProcessor := {
  config : Config;
  thought_count : Z;
  current_text : list string;
  self_thought_switch_tokens : list string;
  max_sequence_length : nat;
}.

(** [__init__]: [max] over an empty generator raises [ValueError]. *)
Definition init (cfg : Config) : result ThinkDeeperProcessor :=
  match map (fun t => length (Str.split t)) (thought_switch_tokens cfg) with
  | [] => Raise (ValueError "max() arg is an empty sequence")
  | n :: ns =>
      Ok {| config := cfg;
            thought_count := 0;
            current_text := [];
            self_thought_switch_tokens := thought_switch_tokens cfg;
            max_sequence_length := fold_left Nat.max ns n |}
  end.

(** [l[-k:]] for [k >= 0]: the last [k] items, and the whole list when
    [k] is 0 (the slice is then [l[0:]]) or exceeds the length. *)
Definition last_items {A} (k : nat) (l : list A) : list A :=
  match k with
  | O => l
  | S _ => drop (length l - k) l
  end.

(** [is_thought_switch]: some thought-switch phrase occurs in the text
    joined from the last [max_sequence_length] chunks.  The argument
    [text_chunk] is not looked at. *)
Definition is_thought_switch (p : ThinkDeeperProcessor) (text_chunk : string) : bool :=
  let last_words :=
    Str.join " " (last_items (max_sequence_length p) (current_text p)) in
  existsb (fun switch => Str.contains switch last_words)
          (self_thought_switch_tokens p).

Definition response_vocabulary : list string :=
  [ "Let’s consider"; "This means"; "So,"; "Therefore,";
    "If we think about it,"; "The next step is"; "That leads to" ].

Definition step_objects : list string := ["this"; "that"; "the issue"].

(** The store of one call of [reasoning_effort]: the instance and the
    locals, with the random generator. *)
Record Frame := {
  self : ThinkDeeperProcessor;
  prompt : string;
  n_thinking_steps : Z;
  seen_end_think : bool;
  gen : rng;
}.

(** [self.current_text.append(chunk)] *)
Definition append_text (chunk : string) (f : Frame) : Frame :=
  {| self := {| config := config (self f);
                thought_count := thought_count (self f);
                current_text := current_text (self f) ++ [chunk];
                self_thought_switch_tokens := self_thought_switch_tokens (self f);
                max_sequence_length := max_sequence_length (self f) |};
     prompt := prompt f;
     n_thinking_steps := n_thinking_steps f;
     seen_end_think := seen_end_think f;
     gen := gen f |}.

(** [self.thought_count += 1] *)
Definition incr_thought_count (f : Frame) : Frame :=
  {| self := {| config := config (self f);
                thought_count := thought_count (self f) + 1;
                current_text := current_text (self f);
                self_thought_switch_tokens := self_thought_switch_tokens (self f);
                max_sequence_length := max_sequence_length (self f) |};
     prompt := prompt f;
     n_thinking_steps := n_thinking_steps f;
     seen_end_think := seen_end_think f;
     gen := gen f |}.

Definition set_n_thinking_steps (n : Z) (f : Frame) : Frame :=
  {| self := self f; prompt := prompt f; n_thinking_steps := n;
     seen_end_think := seen_end_think f; gen := gen f |}.

Definition set_seen_end_think (b : bool) (f : Frame) : Frame :=
  {| self := self f; prompt := prompt f; n_thinking_steps := n_thinking_steps f;
     seen_end_think := b; gen := gen f |}.

Definition set_gen (g : rng) (f : Frame) : Frame :=
  {| self := self f; prompt := prompt f; n_thinking_steps := n_thinking_steps f;
     seen_end_think := seen_end_think f; gen := g |}.

(** How one pass through the body of [while True] ends: at the [break]
    after the forced marker, at the [break] after the natural end, or at
    the bottom of the body. *)
Inductive Flow :=
| ForcedEnd (f : Frame)
| NaturalEnd (f : Frame)
| Continue (f : Frame).

Definition force_end (f : Frame) : bool :=
  (max_thinking_tokens (config (self f)) <=? n_thinking_steps f)
  || (max_thoughts (config (self f)) <=? thought_count (self f)).

(** [not seen_end_think and (random.random() < 0.3 or n_thinking_steps == 0)]:
    the draw is made only when the flag is still false. *)
Definition decide_switch (f : Frame) : bool * Frame :=
  if seen_end_think f then (false, f)
  else
    let (k, g) := random (gen f) in
    (lt_0_3 k || (n_thinking_steps f =? 0), set_gen g f).

(** The thought switch of lines 73-75. *)
Definition thought_switch (f : Frame) : result Frame :=
  '(switch, g) ← choice (self_thought_switch_tokens (self f)) (gen f);
  mret (incr_thought_count (append_text switch (set_gen g f))).

(** The reasoning step of lines 79-81. *)
Definition reasoning_step (f : Frame) : result Frame :=
  '(v, g1) ← choice response_vocabulary (gen f);
  '(o, g2) ← choice step_objects g1;
  let step := v +:+ " " +:+ o +:+ "." in
  mret (set_n_thinking_steps
          (n_thinking_steps f + Z.of_nat (length (Str.split step)))
          (append_text step (set_gen g2 f))).

(** The natural end of lines 84-87. *)
Definition natural_end (f : Frame) : Flow :=
  if min_thinking_tokens (config (self f)) <=? n_thinking_steps f
  then
    let (k, g) := random (gen f) in
    let f1 := set_gen g f in
    if lt_0_1 k && negb (seen_end_think f1)
    then NaturalEnd (set_seen_end_think true
                       (append_text (end_think_token (config (self f1))) f1))
    else Continue f1
  else Continue f.

(** One pass through the body of the loop, lines 61-87. *)
Definition iteration (f : Frame) : result Flow :=
  if force_end f && negb (seen_end_think f)
  then mret (ForcedEnd (set_seen_end_think true
                          (append_text (end_think_token (config (self f))) f)))
  else
    let (switch, f1) := decide_switch f in
    f2 ← (if switch then thought_switch f1 else reasoning_step f1);
    mret (natural_end f2).

(** [while True], at most [fuel] passes. *)
Fixpoint while_loop (fuel : nat) (f : Frame) : option (result Frame) :=
  match fuel with
  | O => None
  | S fuel' =>
      match iteration f with
      | Raise e => Some (Raise e)
      | Ok (ForcedEnd f') | Ok (NaturalEnd f') => Some (Ok f')
      | Ok (Continue f') => while_loop fuel' f'
      end
  end.

(** [messages[-1]["content"] if messages and "content" in messages[-1] else ""]
    for [messages] that is [None] or a list of dictionaries. *)
Definition extract_prompt (messages : option (list (gmap string string))) : string :=
  match messages with
  | None => ""
  | Some ms =>
      match last ms with
      | None => ""
      | Some m => default "" (m !! "content")
      end
  end.

(** Lines 46-58: the frame on entry to the loop.  [self.current_text] is
    replaced by the seed; [self.thought_count] is whatever the instance holds. *)
Definition enter (p : ThinkDeeperProcessor)
    (messages : option (list (gmap string string))) (g : rng) : Frame :=
  {| self := {| config := config p;
                thought_count := thought_count p;
                current_text :=
                  [start_think_token (config p) +:+ String "010" "" +:+ prefill (config p)];
                self_thought_switch_tokens := self_thought_switch_tokens p;
                max_sequence_length := max_sequence_length p |};
     prompt := extract_prompt messages;
     n_thinking_steps := 0;
     seen_end_think := false;
     gen := g |}.

(** Lines 89-90: the fallback after the loop. *)
Definition close_think (f : Frame) : Frame :=
  if negb (seen_end_think f)
  then append_text (end_think_token (config (self f))) f
  else f.

(** The frame when [reasoning_effort] reaches its last two lines. *)
Definition run_loop (fuel : nat) (p : ThinkDeeperProcessor)
    (messages : option (list (gmap string string))) (g : rng)
    : option (result Frame) :=
  match while_loop fuel (enter p messages g) with
  | None => None
  | Some (Raise e) => Some (Raise e)
  | Some (Ok f) => Some (Ok (close_think f))
  end.

(** Line 92: [" ".join(self.current_text).strip()] *)
Definition response_of (f : Frame) : string :=
  Str.strip (Str.join " " (current_text (self f))).

Definition reasoning_effort (fuel : nat) (p : ThinkDeeperProcessor)
    (messages : option (list (gmap string string))) (g : rng)
    : option (result string) :=
  match run_loop fuel p messages g with
  | None => None
  | Some (Raise e) => Some (Raise e)
  | Some (Ok f) => Some (Ok (response_of f))
  end.

(** [thinkdeeper_decode]: the [except] clause logs and re-raises, and
    [messages or []] turns [None] into the empty list. *)
Definition thinkdeeper_decode (fuel : nat)
    (messages : option (list (gmap string string)))
    (request_config : option RequestConfig) (g : rng)
    : option (result string) :=
  let config := resolve_config request_config in
  match init config with
  | Raise e => Some (Raise e)
  | Ok processor => reasoning_effort fuel processor (Some (default [] messages)) g
  end.

(** Every text that line 79 can build. *)
Definition reasoning_steps : list string :=
  flat_map (fun v => map (fun o => v +:+ " " +:+ o +:+ ".") step_objects)
           response_vocabulary.

(** A chunk appended by line 74 or by line 80. *)
Definition generated_chunk (p : ThinkDeeperProcessor) (c : string) : Prop :=
  In c (self_thought_switch_tokens p) ∨ In c reasoning_steps.

(** The state after line 75 and the state after line 81. *)
Definition switched (switch : string) (g : rng) (f : Frame) : Frame :=
  incr_thought_count (append_text switch (set_gen g f)).

Definition stepped (step : string) (g : rng) (f : Frame) : Frame :=
  set_n_thinking_steps
    (n_thinking_steps f + Z.of_nat (length (Str.split step)))
    (append_text step (set_gen g f)).

(** The two ways through lines 72-81. *)
Inductive body (f : Frame) : Frame → Prop :=
| body_switch sw g g' :
    seen_end_think f = false →
    In sw (self_thought_switch_tokens (self f)) →
    body f (switched sw g' (set_gen g f))
| body_step c g g' :
    In c reasoning_steps →
    body f (stepped c g' (set_gen g f)).

(** The seed, a blank and the end marker: the text of an empty thinking span
    before [strip]. *)
Definition empty_span (cfg : Config) : string :=
  (start_think_token cfg +:+ String "010" "" +:+ prefill cfg)
    +:+ " " +:+ end_think_token cfg.

(** The frame with another value for the local [prompt]. *)
Definition set_prompt (s : string) (f : Frame) : Frame :=
  {| self := self f; prompt := s; n_thinking_steps := n_thinking_steps f;
     seen_end_think := seen_end_think f; gen := gen f |}.

Definition on_flow (h : Frame → Frame) (fl : Flow) : Flow :=
  match fl with
  | ForcedEnd f => ForcedEnd (h f)
  | NaturalEnd f => NaturalEnd (h f)
  | Continue f => Continue (h f)
  end.

(** What the two caps of line 62 still leave room for. *)
Definition remaining (f : Frame) : nat :=
  (Z.to_nat (max_thoughts (config (self f)) - thought_count (self f))
   + Z.to_nat (max_thinking_tokens (config (self f)) - n_thinking_steps f))%nat.

(** The number of passes after which the loop has certainly exited. *)
Definition iteration_bound (cfg : Config) : nat :=
  (Z.to_nat (max_thoughts cfg) + Z.to_nat (max_thinking_tokens cfg) + 1)%nat.

End Sim.

(** ** The token-id variant: [optillm/plugins/thinkdeeper_plugin.py] *)

Module Plugin.
Import Random.

Definition token := Z.

(** What the code asks of a tokenizer.  A chat message is a pair of its
    role and its content; the flag of [apply_chat_template] is
    [continue_final_message]. *)
Record Tokenizer := {
  encode : string -> list token;
  decode : list token -> string;
  apply_chat_template : list (string * string) -> bool -> list token;
}.

(** One forward pass followed by [torch.multinomial]: a sampled token, or
    the exception the backend raised. *)
Inductive Reply :=
| Sampled (next_token : token)
| Fault (e : exn).

(** The causal model: [forward] sees the tokens held by the cache so far
    together with the new input ids, and the number of the call, which
    stands for the sampling randomness. *)
Record Model := {
  eos_token_id : token;
  forward : list token -> nat -> Reply;
}.

Record Config := {
  replacements : list string;
  min_thinking_tokens : Z;
  prefill : string;
  start_think_token : string;
  end_think_token : string;
}.

Definition DEFAULT_CONFIG : Config := {|
  replacements := [String "010" "Wait, but"; String "010" "Hmm"; String "010" "So"];
  min_thinking_tokens := 128;
  prefill := "";
  start_think_token := "<think>";
  end_think_token := "</think>";
|}.

(** The [thinkdeeper_config] entry of a request, each key present or not. *)
Record RequestConfig := {
  rq_replacements : option (list string);
  rq_min_thinking_tokens : option Z;
  rq_prefill : option string;
  rq_start_think_token : option string;
  rq_end_think_token : option string;
}.

(** Lines 137-143 of [run]; the outer option is [request_config], the
    inner one its ["thinkdeeper_config"] entry. *)
Definition resolve_config (request_config : option (option RequestConfig)) : Config :=
  match request_config with
  | Some (Some rq) => {|
      replacements := default (replacements DEFAULT_CONFIG) (rq_replacements rq);
      min_thinking_tokens :=
        default (min_thinking_tokens DEFAULT_CONFIG) (rq_min_thinking_tokens rq);
      prefill := default (prefill DEFAULT_CONFIG) (rq_prefill rq);
      start_think_token :=
        default (start_think_token DEFAULT_CONFIG) (rq_start_think_token rq);
      end_think_token :=
        default (end_think_token DEFAULT_CONFIG) (rq_end_think_token rq);
    |}
  | _ => DEFAULT_CONFIG
  end.

Record ThinkDeeperProcessor := {
  config : Config;
  tokenizer : Tokenizer;
  model : Model;
  _start_think_token : token;
  self_end_think_token : token;
}.

(** [__init__]: the markers are the second and third token of the
    encoding of their concatenation; a shorter encoding raises. *)
Definition init (cfg : Config) (tk : Tokenizer) (m : Model)
    : result ThinkDeeperProcessor :=
  match encode tk (start_think_token cfg +:+ end_think_token cfg) with
  | _ :: t1 :: t2 :: _ =>
      Ok {| config := cfg; tokenizer := tk; model := m;
            _start_think_token := t1; self_end_think_token := t2 |}
  | _ => Raise (IndexError "list index out of range")
  end.

(** The locals of [reasoning_effort] that the loop updates.  [kv] holds
    the tokens the cache has absorbed, [calls] counts the forward passes. *)
Record Frame := {
  tokens : list token;
  kv : list token;
  calls : nat;
  n_thinking_tokens : Z;
  seen_end_think : bool;
  response_chunks : list string;
  gen : rng;
}.

(** How one pass through the body ends: in the replacement branch, at the
    [break] of the [elif], or in the [else] branch. *)
Inductive Flow :=
| Replaced (f : Frame)
| Stop (f : Frame)
| Emitted (f : Frame).

(** Lines 85-86: the flag once the sampled token has been looked at. *)
Definition seen_after (p : ThinkDeeperProcessor) (next_token : token)
    (f : Frame) : bool :=
  if next_token =? self_end_think_token p then true else seen_end_think f.

(** The condition of lines 92-94, on the flag as updated at line 86. *)
Definition must_continue (p : ThinkDeeperProcessor) (next_token : token)
    (n : Z) (seen : bool) : bool :=
  (((next_token =? self_end_think_token p) || (next_token =? eos_token_id (model p)))
     && (n <? min_thinking_tokens (config p)))
  || ((next_token =? eos_token_id (model p)) && negb seen).

(** One pass through the body of the loop, lines 75-111. *)
Definition iteration (p : ThinkDeeperProcessor) (f : Frame) : result Flow :=
  let context := kv f ++ tokens f in
  match forward (model p) context (calls f) with
  | Fault e => Raise e
  | Sampled next_token =>
      let next_str := decode (tokenizer p) [next_token] in
      let seen := seen_after p next_token f in
      if must_continue p next_token (n_thinking_tokens f) seen
      then
        '(replacement, g) ← choice (replacements (config p)) (gen f);
        let replacement_tokens := encode (tokenizer p) replacement in
        mret (Replaced {|
          tokens := replacement_tokens;
          kv := context;
          calls := S (calls f);
          n_thinking_tokens :=
            n_thinking_tokens f + Z.of_nat (length replacement_tokens);
          seen_end_think := seen;
          response_chunks := response_chunks f ++ [replacement];
          gen := g |})
      else if (next_token =? eos_token_id (model p)) && seen
      then
        mret (Stop {|
          tokens := tokens f;
          kv := context;
          calls := S (calls f);
          n_thinking_tokens := n_thinking_tokens f;
          seen_end_think := seen;
          response_chunks := response_chunks f;
          gen := gen f |})
      else
        mret (Emitted {|
          tokens := [next_token];
          kv := context;
          calls := S (calls f);
          n_thinking_tokens := n_thinking_tokens f + 1;
          seen_end_think := seen;
          response_chunks := response_chunks f ++ [next_str];
          gen := gen f |})
  end.

(** [while True], at most [fuel] passes. *)
Fixpoint while_loop (fuel : nat) (p : ThinkDeeperProcessor) (f : Frame)
    : option (result Frame) :=
  match fuel with
  | O => None
  | S fuel' =>
      match iteration p f with
      | Raise e => Some (Raise e)
      | Ok (Stop f') => Some (Ok f')
      | Ok (Replaced f') | Ok (Emitted f') => while_loop fuel' p f'
      end
  end.

(** Lines 50-57: the prompt the model continues. *)
Definition prompt_tokens (p : ThinkDeeperProcessor) (question : string) : list token :=
  apply_chat_template (tokenizer p)
    [ ("user", question);
      ("assistant",
       start_think_token (config p) +:+ String "010" "" +:+ prefill (config p)) ]
    true.

(** Lines 60-67: the length of the decoded template of the user message. *)
Definition prefix_len (p : ThinkDeeperProcessor) (question : string) : nat :=
  let template_prefix :=
    apply_chat_template (tokenizer p) [("user", question)] false in
  let template_prefix_text := decode (tokenizer p) template_prefix in
  String.length template_prefix_text.

(** Lines 69-72: the frame on entry to the loop. *)
Definition enter (p : ThinkDeeperProcessor) (question : string) (g : rng) : Frame :=
  {| tokens := prompt_tokens p question;
     kv := [];
     calls := O;
     n_thinking_tokens := 0;
     seen_end_think := false;
     response_chunks := [];
     gen := g |}.

(** Line 114: ["".join(response_chunks)] *)
Definition full_response (f : Frame) : string :=
  Str.join "" (response_chunks f).

(** Line 115: [full_response[prefix_len:]] *)
Definition final_response (p : ThinkDeeperProcessor) (question : string)
    (f : Frame) : string :=
  Str.slice_from (prefix_len p question) (full_response f).

Definition reasoning_effort (fuel : nat) (p : ThinkDeeperProcessor)
    (question : string) (g : rng) : option (result string) :=
  match while_loop fuel p (enter p question g) with
  | None => None
  | Some (Raise e) => Some (Raise e)
  | Some (Ok f) => Some (Ok (final_response p question f))
  end.

(** [passes p k f f']: [k] passes through the body lead from [f] to [f']
    without leaving the loop. *)
Inductive passes (p : ThinkDeeperProcessor) : nat → Frame → Frame → Prop :=
| passes_O f : passes p O f f
| passes_replaced k f f1 f2 :
    iteration p f = Ok (Replaced f1) → passes p k f1 f2 → passes p (S k) f f2
| passes_emitted k f f1 f2 :
    iteration p f = Ok (Emitted f1) → passes p k f1 f2 → passes p (S k) f f2.

(** In the run that starts at [f0], some pass has the end-think token come
    out of the model. *)
Definition proposed (p : ThinkDeeperProcessor) (f0 : Frame) : Prop :=
  ∃ k f, passes p k f0 f ∧
    forward (model p) (kv f ++ tokens f) (calls f)
      = Sampled (self_end_think_token p).

(** [AutoTokenizer.from_pretrained] and [AutoModelForCausalLM.from_pretrained]:
    what a model identifier loads, or the exception raised. *)
Record Hub := {
  tokenizer_from_pretrained : string -> result Tokenizer;
  model_from_pretrained : string -> result Model;
}.

(** The text of the fallback that [run] returns from its [except] clause. *)
Definition fallback (e : exn) : string :=
  "Error in enhanced thinking process: " +:+ str_exn e.

(** The [try] block of [run], lines 146-159. *)
Definition attempt (fuel : nat) (hub : Hub) (model_id : string)
    (initial_query : string) (cfg : Config) (g : rng)
    : option (result (string * Z)) :=
  match tokenizer_from_pretrained hub model_id with
  | Raise e => Some (Raise e)
  | Ok tk =>
      match model_from_pretrained hub model_id with
      | Raise e => Some (Raise e)
      | Ok llm =>
          match init cfg tk llm with
          | Raise e => Some (Raise e)
          | Ok processor =>
              match reasoning_effort fuel processor initial_query g with
              | None => None
              | Some (Raise e) => Some (Raise e)
              | Some (Ok response) =>
                  let completion_tokens := Z.of_nat (length (encode tk response)) in
                  Some (Ok (response, completion_tokens))
              end
          end
      end
  end.

(** [run]: every exception of the [try] block becomes the fallback pair.
    [system_prompt] and [client] are not used by the body. *)
Definition run (fuel : nat) (hub : Hub) (system_prompt initial_query : string)
    (model_id : string) (request_config : option (option RequestConfig))
    (g : rng) : option (string * Z) :=
  let config := resolve_config request_config in
  match attempt fuel hub model_id initial_query config g with
  | None => None
  | Some (Ok r) => Some r
  | Some (Raise e) => Some (fallback e, 0)
  end.

End Plugin.

(** ** A small tokenizer and scripted models, for concrete runs *)

Module Toy.
Import Plugin.

(** Token ids: 0 begins the sequence, 1 and 2 are the think markers, 3 ends
    the sequence, 4 and 5 open a user and an assistant turn, 6 closes a
    turn; [1000 + n] is the character with code [n]. *)
Definition char_token (c : ascii) : token := 1000 + Z.of_nat (nat_of_ascii c).

Definition chars (s : string) : list token :=
  map char_token (list_ascii_of_string s).

Definition toy_encode (s : string) : list token :=
  if String.eqb s "<think></think>" then [0; 1; 2] else 0 :: chars s.

Definition detokenize (t : token) : string :=
  if t =? 0 then "<s>"
  else if t =? 1 then "<think>"
  else if t =? 2 then "</think>"
  else if t =? 3 then "</s>"
  else if t =? 4 then "<u>"
  else if t =? 5 then "<a>"
  else if t =? 6 then "<e>"
  else String (ascii_of_nat (Z.to_nat (t - 1000))) "".

Definition toy_decode (ts : list token) : string :=
  Str.join "" (map detokenize ts).

Definition render (m : string * string) : list token :=
  (if String.eqb m.1 "user" then 4 else 5) :: chars m.2 ++ [6].

(** With [continue_final_message] the last turn is left open. *)
Definition toy_template (msgs : list (string * string)) (continue : bool)
    : list token :=
  let all := 0 :: flat_map render msgs in
  if continue then removelast all else all.

Definition toy_tokenizer : Tokenizer :=
  {| encode := toy_encode; decode := toy_decode;
     apply_chat_template := toy_template |}.

(** A model that answers its [k]-th call with the [k]-th entry of a
    script and with [rest] once the script is over. *)
Definition scripted (script : list Reply) (rest : Reply) : Model :=
  {| eos_token_id := 3; forward := fun _ k => nth k script rest |}.

Definition toy_hub (m : Model) : Hub :=
  {| tokenizer_from_pretrained := fun _ => Ok toy_tokenizer;
     model_from_pretrained := fun _ => Ok m |}.

Definition letter (c : ascii) : Reply := Sampled (char_token c).

(** Never an end marker, never the end of the sequence. *)
Definition babbler : Model := scripted [] (letter "a").

(** Closes the thinking span at once, then answers and ends. *)
Definition early_closer : Model :=
  scripted [Sampled 2; letter "o"; letter "k"] (Sampled 3).

(** Closes the thinking span, answers "hello" and ends. *)
Definition answerer : Model :=
  scripted [Sampled 2; letter "h"; letter "e"; letter "l"; letter "l"; letter "o"]
           (Sampled 3).


(** Proposes the end of the sequence in every call. *)
Definition quitter : Model := scripted [] (Sampled 3).

(** Fails on its third call. *)
Definition crasher : Model :=
  scripted [letter "a"; letter "b"; Fault (BackendError "CUDA out of memory")]
           (Sampled 3).

(** A request that only sets [min_thinking_tokens]. *)
Definition with_min (n : Z) : option (option RequestConfig) :=
  Some (Some {| rq_replacements := None; rq_min_thinking_tokens := Some n;
                rq_prefill := None; rq_start_think_token := None;
                rq_end_think_token := None |}).

(** A request that only sets [replacements]. *)
Definition with_replacements (l : list string) : option (option RequestConfig) :=
  Some (Some {| rq_replacements := Some l; rq_min_thinking_tokens := None;
                rq_prefill := None; rq_start_think_token := None;
                rq_end_think_token := None |}).

(** A generator whose every draw is 0. *)
Definition zeros : Random.rng := Random.Rng (fun _ => 0) 0.

(** A request whose markers are ordinary text for the tokenizer. *)
Definition with_markers (a b : string) : option (option RequestConfig) :=
  Some (Some {| rq_replacements := None; rq_min_thinking_tokens := None;
                rq_prefill := None; rq_start_think_token := Some a;
                rq_end_think_token := Some b |}).

(** A request of the simulated variant that sets the two bounds. *)
Definition with_bounds (lo hi : Z) : option Sim.RequestConfig :=
  Some {| Sim.rq_min_thinking_tokens := Some lo;
          Sim.rq_max_thinking_tokens := Some hi;
          Sim.rq_max_thoughts := Some 2;
          Sim.rq_prefill := None;
          Sim.rq_start_think_token := None;
          Sim.rq_end_think_token := None;
          Sim.rq_thought_switch_tokens := None |}.

(** A request of the simulated variant with no thought-switch phrase. *)
Definition without_switches : option Sim.RequestConfig :=
  Some {| Sim.rq_min_thinking_tokens := None;
          Sim.rq_max_thinking_tokens := None;
          Sim.rq_max_thoughts := None;
          Sim.rq_prefill := None;
          Sim.rq_start_think_token := None;
          Sim.rq_end_think_token := None;
          Sim.rq_thought_switch_tokens := Some [] |}.

(** The instance that [Sim.init] builds for [with_bounds lo hi]. *)
Definition sim_processor (lo hi : Z) : Sim.ThinkDeeperProcessor :=
  {| Sim.config := Sim.resolve_config (with_bounds lo hi);
     Sim.thought_count := 0;
     Sim.current_text := [];
     Sim.self_thought_switch_tokens := ["Wait,"; "Alternatively,"];
     Sim.max_sequence_length := 1 |}.

(** [sim_processor 1 3] with a buffer of its own. *)
Definition sim_with_text (l : list string) : Sim.ThinkDeeperProcessor :=
  {| Sim.config := Sim.resolve_config (with_bounds 1 3);
     Sim.thought_count := 0;
     Sim.current_text := l;
     Sim.self_thought_switch_tokens := ["Wait,"; "Alternatively,"];
     Sim.max_sequence_length := 1 |}.

(** The instance that [Plugin.init] builds for the toy tokenizer. *)
Definition processor (request_config : option (option RequestConfig)) (m : Model)
    : ThinkDeeperProcessor :=
  {| config := resolve_config request_config;
     tokenizer := toy_tokenizer;
     model := m;
     _start_think_token := 1;
     self_end_think_token := 2 |}.

End Toy.

(** * Facts about the string functions *)

Section StrFacts.
Import Str.

Lemma str_app_cons (c : ascii) (a b : string) :
  String c a +:+ b = String c (a +:+ b).
Proof. reflexivity. Qed.

Lemma str_app_assoc (a b c : string) : (a +:+ b) +:+ c = a +:+ (b +:+ c).
Proof.
  induction a as [|x a IH]; [reflexivity|]. by rewrite !str_app_cons, IH.
Qed.

Lemma str_app_nonempty_r (a b : string) : b ≠ "" → a +:+ b ≠ "".
Proof. destruct a; [done|]. intros _. rewrite str_app_cons. discriminate. Qed.

(** The text joined from a list that ends with [x] ends with [x]. *)
Lemma join_snoc (sep : string) (l : list string) (x : string) :
  ∃ pre, join sep (l ++ [x]) = pre +:+ x.
Proof.
  induction l as [|y l [pre IH]].
  - by exists "".
  - exists (y +:+ sep +:+ pre). cbn [app join].
    destruct (l ++ [x]) as [|z l'] eqn:E.
    + by destruct l.
    + rewrite IH. by rewrite !str_app_assoc.
Qed.

Lemma lstrip_length (s : string) : (String.length (lstrip s) ≤ String.length s)%nat.
Proof.
  induction s as [|c s IH]; [done|]. cbn. destruct (isspace c); cbn; lia.
Qed.

Lemma rstrip_length (s : string) : (String.length (rstrip s) ≤ String.length s)%nat.
Proof.
  induction s as [|c s IH]; [done|]. cbn.
  destruct (rstrip s); [destruct (isspace c)|]; cbn in *; lia.
Qed.

(** A text that [strip] leaves alone has no blank at its ends. *)
Lemma strip_fixed (m : string) :
  strip m = m → lstrip m = m ∧ rstrip m = m.
Proof.
  unfold strip. intros H.
  assert (lstrip m = m) as L.
  { destruct m as [|c m]; [done|]. cbn in *. destruct (isspace c); [|done].
    pose proof (rstrip_length (lstrip m)). pose proof (lstrip_length m).
    rewrite H in *. cbn in *. lia. }
  split; [done|]. by rewrite L in H.
Qed.

Lemma lstrip_app (pre m : string) :
  lstrip m = m → ∃ x, lstrip (pre +:+ m) = x +:+ m.
Proof.
  intros L. induction pre as [|c pre [x IH]].
  - by exists "".
  - rewrite str_app_cons. cbn. destruct (isspace c).
    + by exists x.
    + by exists (String c pre).
Qed.

Lemma rstrip_app (x m : string) :
  m ≠ "" → rstrip m = m → rstrip (x +:+ m) = x +:+ m.
Proof.
  intros N R. induction x as [|c x IH]; [done|].
  rewrite str_app_cons. cbn. rewrite IH. destruct (x +:+ m) eqn:E; [|done].
  by apply str_app_nonempty_r in E.
Qed.

(** [strip] keeps a trailing text that has no blank at its ends. *)
Lemma strip_app (pre m : string) :
  m ≠ "" → strip m = m → ∃ x, strip (pre +:+ m) = x +:+ m.
Proof.
  intros N [L R]%strip_fixed. destruct (lstrip_app pre m L) as [x E].
  exists x. unfold strip. rewrite E. by apply rstrip_app.
Qed.

End StrFacts.

(** * Facts about the random oracle *)

Section RandomFacts.
Import Random.

Lemma bind_Ok {A B} (a : A) (k : A → result B) : (Ok a ≫= k) = k a.
Proof. reflexivity. Qed.

Lemma choice_inv {A} (l : list A) (g : rng) (x : A) (g' : rng) :
  choice l g = Ok (x, g') → In x l.
Proof.
  destruct l as [|y l]; [done|]. unfold choice, next_draw.
  remember (y :: l) as l0 eqn:E. intros H. injection H as <- _.
  apply nth_In.
  pose proof (Z.mod_pos_bound (draws g (pos g)) (Z.of_nat (length l0))) as B.
  subst l0. cbn [length] in *. lia.
Qed.

Lemma choice_total {A} (l : list A) (g : rng) :
  l ≠ [] → ∃ x g', choice l g = Ok (x, g').
Proof. destruct l; [done|]. intros _. unfold choice, next_draw. eauto. Qed.

End RandomFacts.

(** * Facts about the simulated variant *)

Section SimFacts.
Import Random Sim.

Lemma reasoning_steps_words (c : string) :
  In c reasoning_steps → (2 ≤ length (Str.split c))%nat.
Proof.
  assert (forallb (fun s => 2 <=? length (Str.split s))%nat reasoning_steps = true)
    as H by (vm_compute; reflexivity).
  intros Hc. rewrite forallb_forall in H. apply H in Hc. by apply Nat.leb_le.
Qed.

Lemma thought_switch_inv (f f2 : Frame) :
  thought_switch f = Ok f2 →
  ∃ sw g, In sw (self_thought_switch_tokens (self f)) ∧ f2 = switched sw g f.
Proof.
  unfold thought_switch.
  destruct (choice (self_thought_switch_tokens (self f)) (gen f))
    as [[sw g]|e] eqn:E; [|done].
  intros [= <-]. exists sw, g. split; [|done]. by eapply choice_inv.
Qed.

Lemma reasoning_step_inv (f f2 : Frame) :
  reasoning_step f = Ok f2 → ∃ c g, In c reasoning_steps ∧ f2 = stepped c g f.
Proof.
  unfold reasoning_step.
  destruct (choice response_vocabulary (gen f)) as [[v g1]|e] eqn:E1; [|done].
  rewrite bind_Ok.
  destruct (choice step_objects g1) as [[o g2]|e] eqn:E2; [|done].
  rewrite bind_Ok. intros [= <-]. exists (v +:+ " " +:+ o +:+ "."), g2. split; [|done].
  apply choice_inv in E1, E2. unfold reasoning_steps.
  apply in_flat_map. exists v. split; [done|].
  apply in_map_iff. by exists o.
Qed.

Lemma reasoning_step_total (f : Frame) : ∃ f2, reasoning_step f = Ok f2.
Proof.
  unfold reasoning_step.
  destruct (choice_total response_vocabulary (gen f)) as (v & g1 & ->); [done|].
  rewrite bind_Ok.
  destruct (choice_total step_objects g1) as (o & g2 & ->); [done|].
  rewrite bind_Ok. by eexists.
Qed.

Lemma thought_switch_total (f : Frame) :
  self_thought_switch_tokens (self f) ≠ [] → ∃ f2, thought_switch f = Ok f2.
Proof.
  intros N. unfold thought_switch.
  destruct (choice_total _ (gen f) N) as (x & g' & ->). rewrite bind_Ok. by eexists.
Qed.

Lemma iteration_inv (f : Frame) (fl : Flow) :
  iteration f = Ok fl →
  (force_end f && negb (seen_end_think f) = true ∧
   fl = ForcedEnd (set_seen_end_think true
                     (append_text (end_think_token (config (self f))) f)))
  ∨ (force_end f && negb (seen_end_think f) = false ∧
     ∃ f2, body f f2 ∧ fl = natural_end f2).
Proof.
  unfold iteration. destruct (force_end f && negb (seen_end_think f)) eqn:F.
  - intros [= <-]. by left.
  - intros H. right. split; [done|]. unfold decide_switch in H.
    destruct (seen_end_think f) eqn:S.
    + destruct (reasoning_step f) as [f2|e] eqn:R; [|done].
      injection H as <-. exists f2. split; [|done].
      apply reasoning_step_inv in R as (c & g & Hc & ->).
      replace f with (set_gen (gen f) f) at 2 by (by destruct f).
      by constructor.
    + destruct (random (gen f)) as [k g]. 
      destruct (lt_0_3 k || (n_thinking_steps f =? 0)).
      * destruct (thought_switch (set_gen g f)) as [f2|e] eqn:R; [|done].
        injection H as <-. exists f2. split; [|done].
        apply thought_switch_inv in R as (sw & g' & Hc & ->).
        by constructor.
      * destruct (reasoning_step (set_gen g f)) as [f2|e] eqn:R; [|done].
        injection H as <-. exists f2. split; [|done].
        apply reasoning_step_inv in R as (c & g' & Hc & ->).
        by constructor.
Qed.

Lemma iteration_total (f : Frame) :
  self_thought_switch_tokens (self f) ≠ [] → ∃ fl, iteration f = Ok fl.
Proof.
  intros N. unfold iteration.
  destruct (force_end f && negb (seen_end_think f)); [by eexists|].
  destruct (decide_switch f) as [sw f1] eqn:D.
  assert (self_thought_switch_tokens (self f1) ≠ []) as N1.
  { unfold decide_switch in D. destruct (seen_end_think f).
    - by injection D as _ <-.
    - destruct (random (gen f)). by injection D as _ <-. }
  destruct sw.
  - destruct (thought_switch_total f1 N1) as [f2 ->]. by eexists.
  - destruct (reasoning_step_total f1) as [f2 ->]. by eexists.
Qed.

Lemma set_gen_same (f : Frame) : set_gen (gen f) f = f.
Proof. by destruct f. Qed.

Lemma natural_end_inv (f : Frame) :
  (∃ g, min_thinking_tokens (config (self f)) ≤ n_thinking_steps f ∧
        natural_end f =
          NaturalEnd (set_seen_end_think true
                        (append_text (end_think_token (config (self f)))
                                     (set_gen g f))))
  ∨ (∃ g, natural_end f = Continue (set_gen g f)).
Proof.
  unfold natural_end.
  destruct (min_thinking_tokens (config (self f)) <=? n_thinking_steps f) eqn:M.
  - destruct (random (gen f)) as [k g].
    destruct (lt_0_1 k && negb (seen_end_think (set_gen g f))).
    + left. exists g. split; [lia|done].
    + right. by exists g.
  - right. exists (gen f). by rewrite set_gen_same.
Qed.

(** What lines 72-81 change and what they leave alone. *)
Lemma body_facts (f f2 : Frame) :
  body f f2 →
  config (self f2) = config (self f) ∧
  self_thought_switch_tokens (self f2) = self_thought_switch_tokens (self f) ∧
  seen_end_think f2 = seen_end_think f ∧
  (∃ c, generated_chunk (self f) c ∧
        current_text (self f2) = current_text (self f) ++ [c]) ∧
  ((thought_count (self f2) = thought_count (self f) + 1 ∧
    n_thinking_steps f2 = n_thinking_steps f)
   ∨ (thought_count (self f2) = thought_count (self f) ∧
      n_thinking_steps f + 2 ≤ n_thinking_steps f2)).
Proof.
  intros [sw g g' S Hsw | c g g' Hc]; cbn;
    (split; [done|]); (split; [done|]); (split; [done|]); split.
  - exists sw. split; [by left|done].
  - by left.
  - exists c. split; [by right|done].
  - right. split; [done|]. apply reasoning_steps_words in Hc. lia.
Qed.

Lemma continue_facts (f f' : Frame) :
  iteration f = Ok (Continue f') →
  force_end f && negb (seen_end_think f) = false ∧
  config (self f') = config (self f) ∧
  self_thought_switch_tokens (self f') = self_thought_switch_tokens (self f) ∧
  seen_end_think f' = seen_end_think f ∧
  (∃ c, generated_chunk (self f) c ∧
        current_text (self f') = current_text (self f) ++ [c]) ∧
  ((thought_count (self f') = thought_count (self f) + 1 ∧
    n_thinking_steps f' = n_thinking_steps f)
   ∨ (thought_count (self f') = thought_count (self f) ∧
      n_thinking_steps f + 2 ≤ n_thinking_steps f')).
Proof.
  intros [[_ [=]] | [F (f2 & B & E)]]%iteration_inv. split; [done|].
  apply body_facts in B.
  destruct (natural_end_inv f2) as [(g & _ & N) | (g & N)];
    rewrite N in E; [done|]. injection E as ->. by cbn.
Qed.

Lemma break_facts (f f' : Frame) :
  iteration f = Ok (ForcedEnd f') ∨ iteration f = Ok (NaturalEnd f') →
  config (self f') = config (self f) ∧
  seen_end_think f' = true ∧
  ∃ chunks, Forall (generated_chunk (self f)) chunks ∧
    current_text (self f') =
      current_text (self f) ++ chunks ++ [end_think_token (config (self f))].
Proof.
  intros [H | H]; apply iteration_inv in H as [[_ E] | [F (f2 & B & E)]];
    try (injection E as ->); try done.
  - cbn. split; [done|]. split; [done|]. by exists [].
  - destruct (natural_end_inv f2) as [(g & _ & N) | (g & N)];
      rewrite N in E; [|done]. discriminate.
  - apply body_facts in B as (C & _ & _ & (c & G & T) & _).
    destruct (natural_end_inv f2) as [(g & _ & N) | (g & N)];
      rewrite N in E; [|done]. injection E as ->. cbn.
    split; [done|]. split; [done|]. exists [c]. split; [by constructor|].
    rewrite T, C. by rewrite <- app_assoc.
Qed.

Lemma generated_chunk_ext (p q : ThinkDeeperProcessor) (c : string) :
  self_thought_switch_tokens p = self_thought_switch_tokens q →
  generated_chunk p c → generated_chunk q c.
Proof. unfold generated_chunk. by intros ->. Qed.

(** Whatever the fuel, a loop that exits has appended generated chunks and
    then the end marker, and has set the flag. *)
Lemma while_loop_post (fuel : nat) (f f' : Frame) :
  while_loop fuel f = Some (Ok f') →
  config (self f') = config (self f) ∧
  seen_end_think f' = true ∧
  ∃ chunks, Forall (generated_chunk (self f)) chunks ∧
    current_text (self f') =
      current_text (self f) ++ chunks ++ [end_think_token (config (self f))].
Proof.
  revert f. induction fuel as [|fuel IH]; intros f; [done|]. cbn.
  destruct (iteration f) as [[f1|f1|f1]|e] eqn:I; [..|done].
  - intros [= <-]. apply break_facts. by left.
  - intros [= <-]. apply break_facts. by right.
  - intros H. apply IH in H as (C & S & chunks & G & T).
    apply continue_facts in I as (_ & C1 & W1 & _ & (c & Gc & T1) & _).
    split; [congruence|]. split; [done|].
    exists (c :: chunks). split.
    + constructor; [done|].
      eapply Forall_impl; [exact G|]. intros x. by apply generated_chunk_ext.
    + rewrite T, T1, C1. by rewrite <- app_assoc.
Qed.

(** The loop exits before the fuel runs out once the fuel exceeds what the
    two caps leave room for. *)
Lemma while_loop_terminates (fuel : nat) (f : Frame) :
  self_thought_switch_tokens (self f) ≠ [] →
  seen_end_think f = false →
  (remaining f < fuel)%nat →
  ∃ f', while_loop fuel f = Some (Ok f').
Proof.
  revert f. induction fuel as [|fuel IH]; intros f N S R; [lia|]. cbn.
  destruct (iteration_total f N) as [[f1|f1|f1] I]; rewrite I; [by eexists..|].
  apply continue_facts in I as (F & C1 & W1 & S1 & _ & M).
  apply IH; [congruence..|].
  rewrite S in F. unfold force_end in F. cbn [negb] in F.
  rewrite andb_true_r in F. apply orb_false_iff in F as [F1 F2].
  apply Z.leb_gt in F1, F2. unfold remaining in *. rewrite C1.
  destruct M as [[-> ->] | [-> M]]; lia.
Qed.

End SimFacts.

(** * Facts about the token-id variant *)

Section PluginFacts.
Import Random Plugin.

Ltac open_iteration H next E :=
  unfold iteration in H;
  destruct (forward _ _ _) as [next|?] eqn:E; [|discriminate H].

Lemma replaced_facts (p : ThinkDeeperProcessor) (f f' : Frame) :
  iteration p f = Ok (Replaced f') →
  ∃ next r,
    forward (model p) (kv f ++ tokens f) (calls f) = Sampled next ∧
    must_continue p next (n_thinking_tokens f) (seen_after p next f) = true ∧
    In r (replacements (config p)) ∧
    response_chunks f' = response_chunks f ++ [r] ∧
    n_thinking_tokens f' =
      n_thinking_tokens f + Z.of_nat (length (encode (tokenizer p) r)) ∧
    tokens f' = encode (tokenizer p) r ∧
    seen_end_think f' = seen_after p next f ∧
    calls f' = S (calls f).
Proof.
  intros H. open_iteration H next E.
  destruct (must_continue _ _ _ _) eqn:M.
  - destruct (choice _ _) as [[r g]|e] eqn:C; [|discriminate H].
    rewrite bind_Ok in H. injection H as <-. exists next, r.
    apply choice_inv in C. by cbn.
  - by destruct (_ && _).
Qed.

Lemma emitted_facts (p : ThinkDeeperProcessor) (f f' : Frame) :
  iteration p f = Ok (Emitted f') →
  ∃ next,
    forward (model p) (kv f ++ tokens f) (calls f) = Sampled next ∧
    must_continue p next (n_thinking_tokens f) (seen_after p next f) = false ∧
    response_chunks f' = response_chunks f ++ [decode (tokenizer p) [next]] ∧
    n_thinking_tokens f' = n_thinking_tokens f + 1 ∧
    tokens f' = [next] ∧
    seen_end_think f' = seen_after p next f ∧
    calls f' = S (calls f).
Proof.
  intros H. open_iteration H next E.
  destruct (must_continue _ _ _ _) eqn:M.
  - by destruct (choice _ _) as [[r g]|e].
  - destruct (_ && _); [discriminate H|]. injection H as <-.
    exists next. by cbn.
Qed.

Lemma stop_facts (p : ThinkDeeperProcessor) (f f' : Frame) :
  iteration p f = Ok (Stop f') →
  forward (model p) (kv f ++ tokens f) (calls f) = Sampled (eos_token_id (model p)) ∧
  seen_after p (eos_token_id (model p)) f = true ∧
  min_thinking_tokens (config p) ≤ n_thinking_tokens f ∧
  response_chunks f' = response_chunks f ∧
  n_thinking_tokens f' = n_thinking_tokens f ∧
  seen_end_think f' = true ∧
  calls f' = S (calls f).
Proof.
  intros H. open_iteration H next E.
  destruct (must_continue _ _ _ _) eqn:M.
  - by destruct (choice _ _) as [[r g]|e].
  - destruct (_ && _) eqn:B; [|discriminate H]. injection H as <-.
    apply andb_true_iff in B as [B1 B2]. apply Z.eqb_eq in B1. subst next.
    unfold must_continue in M. rewrite Z.eqb_refl, orb_true_r in M.
    apply orb_false_iff in M as [M _]. cbn in M. apply Z.ltb_ge in M.
    by cbn.
Qed.

Lemma passes_snoc (p : ThinkDeeperProcessor) (k : nat) (f f1 f2 : Frame) :
  passes p k f f1 →
  iteration p f1 = Ok (Replaced f2) ∨ iteration p f1 = Ok (Emitted f2) →
  passes p (S k) f f2.
Proof.
  intros P I. induction P as [f | k f g1 g2 J P IH | k f g1 g2 J P IH].
  - destruct I as [I | I].
    + eapply passes_replaced; [exact I|constructor].
    + eapply passes_emitted; [exact I|constructor].
  - eapply passes_replaced; [exact J|by apply IH].
  - eapply passes_emitted; [exact J|by apply IH].
Qed.

Lemma seen_after_proposed (p : ThinkDeeperProcessor) (k : nat) (f0 f : Frame)
    (next : token) :
  passes p k f0 f →
  forward (model p) (kv f ++ tokens f) (calls f) = Sampled next →
  (seen_end_think f = true → proposed p f0) →
  seen_after p next f = true → proposed p f0.
Proof.
  intros P E J. unfold seen_after. destruct (next =? _) eqn:N; [|exact J].
  intros _. apply Z.eqb_eq in N. subst next. by exists k, f.
Qed.

(** A loop that exits has seen the end-think token come out of the model
    in some pass of the run, and stops with the minimum reached. *)
Lemma plugin_loop_post (fuel : nat) (p : ThinkDeeperProcessor) (k : nat)
    (f0 f f' : Frame) :
  passes p k f0 f →
  (seen_end_think f = true → proposed p f0) →
  while_loop fuel p f = Some (Ok f') →
  seen_end_think f' = true ∧
  min_thinking_tokens (config p) ≤ n_thinking_tokens f' ∧
  proposed p f0.
Proof.
  revert k f. induction fuel as [|fuel IH]; intros k f P J; [done|]. cbn.
  destruct (iteration p f) as [[f1|f1|f1]|e] eqn:I; [..|done].
  - apply (IH (S k)); [eapply passes_snoc; eauto|]. intros S.
    apply replaced_facts in I as (next & r & E & _ & _ & _ & _ & _ & S1 & C).
    rewrite S1 in S. by eapply seen_after_proposed.
  - intros [= <-].
    apply stop_facts in I as (E & SA & M & _ & N & S & C).
    split; [done|]. split; [lia|]. by eapply seen_after_proposed.
  - apply (IH (S k)); [eapply passes_snoc; eauto|]. intros S.
    apply emitted_facts in I as (next & E & _ & _ & _ & _ & S1 & C).
    rewrite S1 in S. by eapply seen_after_proposed.
Qed.

End PluginFacts.

(** * The concrete instances are the ones the constructors build *)

Section ToyFacts.

Lemma processor_with_min (n : Z) (m : Plugin.Model) :
  Plugin.init (Plugin.resolve_config (Toy.with_min n)) Toy.toy_tokenizer m
  = Ok (Toy.processor (Toy.with_min n) m).
Proof. reflexivity. Qed.

Lemma processor_with_replacements (l : list string) (m : Plugin.Model) :
  Plugin.init (Plugin.resolve_config (Toy.with_replacements l)) Toy.toy_tokenizer m
  = Ok (Toy.processor (Toy.with_replacements l) m).
Proof. reflexivity. Qed.

Lemma sim_processor_built (lo hi : Z) :
  Sim.init (Sim.resolve_config (Toy.with_bounds lo hi))
  = Ok (Toy.sim_processor lo hi).
Proof. reflexivity. Qed.

End ToyFacts.

(** * The claims *)

Section Termination.
Import Random.

Lemma babbler_pass (p : Plugin.ThinkDeeperProcessor) (f : Plugin.Frame) :
  Plugin.model p = Toy.babbler →
  Plugin.self_end_think_token p = 2 →
  ∃ f', Plugin.iteration p f = Ok (Plugin.Emitted f').
Proof.
  intros M E. unfold Plugin.iteration. rewrite M.
  assert (∀ c k, Plugin.forward Toy.babbler c k = Toy.letter "a") as ->.
  { intros c k. cbn. by destruct k. }
  unfold Toy.letter, Plugin.must_continue, Plugin.seen_after. rewrite M, E.
  cbn. by eexists.
Qed.

Lemma babbler_forever (fuel : nat) (p : Plugin.ThinkDeeperProcessor)
    (f : Plugin.Frame) :
  Plugin.model p = Toy.babbler →
  Plugin.self_end_think_token p = 2 →
  Plugin.while_loop fuel p f = None.
Proof.
  intros M E. revert f. induction fuel as [|fuel IH]; intros f; [done|].
  cbn. destruct (babbler_pass p f M E) as [f' ->]. apply IH.
Qed.

(** C1, as stated, fails for the token-id variant: against a model that
    never proposes the end of the sequence the loop is still running after
    any number of passes, so [run] returns for no amount of fuel. *)
Lemma token_id_loop_unbounded :
  Plugin.init Plugin.DEFAULT_CONFIG Toy.toy_tokenizer Toy.babbler
    = Ok (Toy.processor None Toy.babbler)
  ∧ ∀ fuel, Plugin.run fuel (Toy.toy_hub Toy.babbler) "" "hi" "m" None Toy.zeros
            = None.
Proof.
  split; [vm_compute; reflexivity|]. intros fuel.
  unfold Plugin.run, Plugin.attempt. cbn [Toy.toy_hub
    Plugin.tokenizer_from_pretrained Plugin.model_from_pretrained].
  change (Plugin.init _ _ _) with (Ok (Toy.processor None Toy.babbler)).
  cbv iota beta. unfold Plugin.reasoning_effort.
  by rewrite babbler_forever.
Qed.

(** C1, amended: the loop of the simulated variant exits within
    [max_thoughts + max_thinking_tokens + 1] passes (each bound counted
    as 0 when negative), whatever the configuration, the messages and
    the random draws. *)
Theorem sim_loop_bounded (p : Sim.ThinkDeeperProcessor)
    (messages : option (list (gmap string string))) (g : rng) (fuel : nat) :
  Sim.self_thought_switch_tokens p ≠ [] →
  0 ≤ Sim.thought_count p →
  (Sim.iteration_bound (Sim.config p) ≤ fuel)%nat →
  ∃ f, Sim.while_loop fuel (Sim.enter p messages g) = Some (Ok f).
Proof.
  intros N T B. apply while_loop_terminates; [done..|].
  unfold Sim.remaining, Sim.iteration_bound in *. cbn. lia.
Qed.

(** [sim_loop_bounded] at a concrete run. *)
Lemma sim_loop_bounded_witness :
  Sim.self_thought_switch_tokens (Toy.sim_processor 1 3) ≠ []
  ∧ 0 ≤ Sim.thought_count (Toy.sim_processor 1 3)
  ∧ (Sim.iteration_bound (Sim.config (Toy.sim_processor 1 3)) ≤ 6)%nat
  ∧ ∃ f, Sim.while_loop 6 (Sim.enter (Toy.sim_processor 1 3) None Toy.zeros)
         = Some (Ok f).
Proof.
  assert (Sim.self_thought_switch_tokens (Toy.sim_processor 1 3) ≠ []) as N
    by discriminate.
  assert (0 ≤ Sim.thought_count (Toy.sim_processor 1 3)) as T by (cbn; lia).
  assert (Sim.iteration_bound (Sim.config (Toy.sim_processor 1 3)) ≤ 6)%nat as B
    by (vm_compute; lia).
  repeat split; [done..|].
  exact (sim_loop_bounded (Toy.sim_processor 1 3) None Toy.zeros 6 N T B).
Defined.

End Termination.

Section SimulatedBuffer.
Import Random Sim.

(** C10: whenever the loop of the simulated variant exits, the flag is
    set, so the fallback of lines 89-90 changes nothing, and the buffer is
    the seed [start_think_token + "\n" + prefill], then chunks appended by
    line 74 or line 80, then the end marker appended once, last. *)
Theorem buffer_shape (fuel : nat) (p : ThinkDeeperProcessor)
    (messages : option (list (gmap string string))) (g : rng) (f : Frame) :
  while_loop fuel (enter p messages g) = Some (Ok f) →
  seen_end_think f = true
  ∧ close_think f = f
  ∧ ∃ chunks, Forall (generated_chunk p) chunks ∧
      current_text (self (close_think f)) =
        (start_think_token (config p) +:+ String "010" "" +:+ prefill (config p))
          :: chunks ++ [end_think_token (config p)].
Proof.
  intros H. apply while_loop_post in H as (_ & S & chunks & G & T).
  assert (close_think f = f) as C by (unfold close_think; by rewrite S).
  split; [done|]. split; [done|]. exists chunks. split.
  - eapply Forall_impl; [exact G|]. intros c. by apply generated_chunk_ext.
  - by rewrite C, T.
Qed.

(** [buffer_shape] at a concrete run. *)
Lemma buffer_shape_witness :
  ∃ f, while_loop 6 (enter (Toy.sim_processor 1 3) None Toy.zeros) = Some (Ok f)
    ∧ seen_end_think f = true
    ∧ close_think f = f
    ∧ ∃ chunks, Forall (generated_chunk (Toy.sim_processor 1 3)) chunks ∧
        current_text (self (close_think f)) =
          ("<think>" +:+ String "010" "" +:+ "")
            :: chunks ++ ["</think>"].
Proof.
  eexists. split; [vm_compute; reflexivity|].
  eapply (buffer_shape 6 (Toy.sim_processor 1 3) None Toy.zeros).
  vm_compute; reflexivity.
Defined.

Lemma thought_switch_set_prompt (s : string) (f : Frame) :
  thought_switch (set_prompt s f) = set_prompt s <$> thought_switch f.
Proof.
  unfold thought_switch. cbn.
  destruct (choice _ (gen f)) as [[sw g]|e]; [|done]. by rewrite !bind_Ok.
Qed.

Lemma reasoning_step_set_prompt (s : string) (f : Frame) :
  reasoning_step (set_prompt s f) = set_prompt s <$> reasoning_step f.
Proof.
  unfold reasoning_step. cbn.
  destruct (choice response_vocabulary (gen f)) as [[v g1]|e]; [|done].
  rewrite !bind_Ok.
  destruct (choice step_objects g1) as [[o g2]|e]; [|done].
  by rewrite !bind_Ok.
Qed.

Lemma natural_end_set_prompt (s : string) (f : Frame) :
  natural_end (set_prompt s f) = on_flow (set_prompt s) (natural_end f).
Proof.
  unfold natural_end. cbn. destruct (_ <=? _); [|done].
  destruct (random (gen f)) as [k g]. cbn. by destruct (_ && _).
Qed.

Lemma decide_switch_set_prompt (s : string) (f : Frame) :
  decide_switch (set_prompt s f)
  = ((decide_switch f).1, set_prompt s (decide_switch f).2).
Proof.
  unfold decide_switch. cbn. destruct (seen_end_think f); [done|].
  by destruct (random (gen f)) as [k g].
Qed.

Lemma iteration_set_prompt (s : string) (f : Frame) :
  iteration (set_prompt s f) = on_flow (set_prompt s) <$> iteration f.
Proof.
  unfold iteration. rewrite decide_switch_set_prompt.
  change (force_end (set_prompt s f)) with (force_end f).
  change (seen_end_think (set_prompt s f)) with (seen_end_think f).
  destruct (_ && _); [done|].
  destruct (decide_switch f) as [[] f1]; cbn [fst snd].
  - rewrite thought_switch_set_prompt.
    destruct (thought_switch f1) as [f2|e]; [|done].
    cbn. by rewrite natural_end_set_prompt.
  - rewrite reasoning_step_set_prompt.
    destruct (reasoning_step f1) as [f2|e]; [|done].
    cbn. by rewrite natural_end_set_prompt.
Qed.

Lemma while_loop_set_prompt (fuel : nat) (s : string) (f : Frame) :
  while_loop fuel (set_prompt s f)
  = fmap (M:=option) (fmap (M:=result) (set_prompt s)) (while_loop fuel f).
Proof.
  revert f. induction fuel as [|fuel IH]; intros f; [done|]. cbn.
  rewrite iteration_set_prompt.
  destruct (iteration f) as [[f1|f1|f1]|e]; cbn; by try apply IH.
Qed.

Lemma response_set_prompt (s : string) (f : Frame) :
  response_of (close_think (set_prompt s f)) = response_of (close_think f).
Proof. unfold close_think. cbn. by destruct (seen_end_think f). Qed.

(** C9: the text returned by the simulated variant does not depend on the
    messages: for the same instance, the same fuel and the same random
    draws, [reasoning_effort] and [thinkdeeper_decode] return the same
    result for any two message lists. *)
Theorem messages_ignored (fuel : nat) (p : ThinkDeeperProcessor)
    (m1 m2 : option (list (gmap string string))) (g : rng)
    (request_config : option RequestConfig) :
  reasoning_effort fuel p m1 g = reasoning_effort fuel p m2 g
  ∧ thinkdeeper_decode fuel m1 request_config g
    = thinkdeeper_decode fuel m2 request_config g.
Proof.
  assert (∀ q a b, reasoning_effort fuel q a g = reasoning_effort fuel q b g) as R.
  { intros q a b. unfold reasoning_effort, run_loop.
    change (enter q a g) with (set_prompt (extract_prompt a) (enter q b g)).
    rewrite while_loop_set_prompt.
    destruct (while_loop fuel (enter q b g)) as [[f|e]|]; cbn; try done.
    by rewrite response_set_prompt. }
  split; [apply R|]. unfold thinkdeeper_decode.
  destruct (init _); [apply R|done].
Qed.

End SimulatedBuffer.

Section Transitions.
Import Random.

(** C3, as stated, fails: when the model proposes the end-think token
    before the minimum is reached, the replacement is appended and the
    flag, false before the pass, is true after it. *)
Lemma suppressed_marker_recorded :
  ∃ f', Plugin.iteration (Toy.processor (Toy.with_min 2) Toy.early_closer)
          (Plugin.enter (Toy.processor (Toy.with_min 2) Toy.early_closer)
             "hi" Toy.zeros)
        = Ok (Plugin.Replaced f')
    ∧ Plugin.seen_end_think
        (Plugin.enter (Toy.processor (Toy.with_min 2) Toy.early_closer)
           "hi" Toy.zeros) = false
    ∧ Plugin.response_chunks f' = [String "010" "Wait, but"]
    ∧ Plugin.seen_end_think f' = true.
Proof. eexists. split; [vm_compute; reflexivity|]. by vm_compute. Qed.

(** C3, amended: in the premature-close transition on the end-think token
    (the model proposes it while [n_thinking_tokens < min_thinking_tokens])
    a replacement phrase is appended instead of the marker, and the flag
    [seen_end_think] is set: the suppressed marker is recorded as seen. *)
Theorem premature_close (p : Plugin.ThinkDeeperProcessor) (f : Plugin.Frame) :
  Plugin.forward (Plugin.model p) (Plugin.kv f ++ Plugin.tokens f) (Plugin.calls f)
    = Plugin.Sampled (Plugin.self_end_think_token p) →
  Plugin.n_thinking_tokens f < Plugin.min_thinking_tokens (Plugin.config p) →
  Plugin.replacements (Plugin.config p) ≠ [] →
  ∃ r f', In r (Plugin.replacements (Plugin.config p))
    ∧ Plugin.iteration p f = Ok (Plugin.Replaced f')
    ∧ Plugin.response_chunks f' = Plugin.response_chunks f ++ [r]
    ∧ Plugin.seen_end_think f' = true.
Proof.
  intros E M N. unfold Plugin.iteration. rewrite E.
  unfold Plugin.must_continue, Plugin.seen_after.
  rewrite Z.eqb_refl. apply Z.ltb_lt in M. rewrite M. cbn [orb andb].
  destruct (choice_total _ (Plugin.gen f) N) as (r & g & C). rewrite C.
  rewrite bind_Ok. exists r. eexists. split; [by eapply choice_inv|].
  split; [reflexivity|]. by cbn.
Qed.

(** [premature_close] at a concrete run. *)
Lemma premature_close_witness :
  ∃ r f', In r (Plugin.replacements
                  (Plugin.config (Toy.processor (Toy.with_min 2) Toy.early_closer)))
    ∧ Plugin.iteration (Toy.processor (Toy.with_min 2) Toy.early_closer)
        (Plugin.enter (Toy.processor (Toy.with_min 2) Toy.early_closer)
           "hi" Toy.zeros)
      = Ok (Plugin.Replaced f')
    ∧ Plugin.response_chunks f'
      = Plugin.response_chunks
          (Plugin.enter (Toy.processor (Toy.with_min 2) Toy.early_closer)
             "hi" Toy.zeros) ++ [r]
    ∧ Plugin.seen_end_think f' = true.
Proof.
  apply (premature_close (Toy.processor (Toy.with_min 2) Toy.early_closer)
           (Plugin.enter (Toy.processor (Toy.with_min 2) Toy.early_closer)
              "hi" Toy.zeros)).
  - vm_compute; reflexivity.
  - vm_compute; reflexivity.
  - discriminate.
Defined.

(** The other premature close: on the end of the sequence, when it is not
    the end-think token, the flag is left as it was. *)
Lemma premature_eos (p : Plugin.ThinkDeeperProcessor) (f f' : Plugin.Frame) :
  Plugin.forward (Plugin.model p) (Plugin.kv f ++ Plugin.tokens f) (Plugin.calls f)
    = Plugin.Sampled (Plugin.eos_token_id (Plugin.model p)) →
  Plugin.eos_token_id (Plugin.model p) ≠ Plugin.self_end_think_token p →
  Plugin.iteration p f = Ok (Plugin.Replaced f') →
  Plugin.seen_end_think f' = Plugin.seen_end_think f.
Proof.
  intros E N (next & r & E' & _ & _ & _ & _ & _ & S & _)%replaced_facts.
  rewrite E in E'. injection E' as <-. rewrite S. unfold Plugin.seen_after.
  apply Z.eqb_neq in N. by rewrite N.
Qed.


End Transitions.

Section Accounting.
Import Random.

(** C6, as stated, fails for the simulated variant: the first pass of the
    loop appends the thought-switch phrase ["Wait,"], a text of one word,
    and [n_thinking_steps] is still 0 after it; only [thought_count]
    moved. *)
Lemma switch_phrase_not_counted :
  ∃ f', Sim.iteration (Sim.enter (Toy.sim_processor 1 3) None Toy.zeros)
        = Ok (Sim.Continue f')
    ∧ Sim.current_text (Sim.self f') = ["<think>" +:+ String "010" ""; "Wait,"]
    ∧ length (Str.split "Wait,") = 1%nat
    ∧ Sim.n_thinking_steps f' = 0
    ∧ Sim.thought_count (Sim.self f') = 1.
Proof. eexists. split; [vm_compute; reflexivity|]. by vm_compute. Qed.

(** C6, amended: in the token-id variant an injected replacement adds the
    number of tokens of its encoding to [n_thinking_tokens], as a
    generated token adds 1; in the simulated variant a reasoning step adds
    its number of words to [n_thinking_steps], while an injected
    thought-switch phrase adds 1 to [thought_count] and leaves
    [n_thinking_steps] as it was. *)
Theorem unit_accounting :
  (∀ (p : Plugin.ThinkDeeperProcessor) (f f' : Plugin.Frame),
     Plugin.iteration p f = Ok (Plugin.Replaced f') →
     ∃ r, In r (Plugin.replacements (Plugin.config p))
       ∧ Plugin.response_chunks f' = Plugin.response_chunks f ++ [r]
       ∧ Plugin.n_thinking_tokens f'
         = Plugin.n_thinking_tokens f
           + Z.of_nat (length (Plugin.encode (Plugin.tokenizer p) r)))
  ∧ (∀ (p : Plugin.ThinkDeeperProcessor) (f f' : Plugin.Frame),
       Plugin.iteration p f = Ok (Plugin.Emitted f') →
       length (Plugin.tokens f') = 1%nat
       ∧ Plugin.n_thinking_tokens f' = Plugin.n_thinking_tokens f + 1)
  ∧ (∀ (f f' : Sim.Frame),
       Sim.reasoning_step f = Ok f' →
       ∃ step, Sim.current_text (Sim.self f') = Sim.current_text (Sim.self f) ++ [step]
         ∧ Sim.n_thinking_steps f'
           = Sim.n_thinking_steps f + Z.of_nat (length (Str.split step))
         ∧ Sim.thought_count (Sim.self f') = Sim.thought_count (Sim.self f))
  ∧ (∀ (f f' : Sim.Frame),
       Sim.thought_switch f = Ok f' →
       ∃ switch, In switch (Sim.self_thought_switch_tokens (Sim.self f))
         ∧ Sim.current_text (Sim.self f') = Sim.current_text (Sim.self f) ++ [switch]
         ∧ Sim.n_thinking_steps f' = Sim.n_thinking_steps f
         ∧ Sim.thought_count (Sim.self f') = Sim.thought_count (Sim.self f) + 1).
Proof.
  repeat apply conj.
  - intros p f f' (next & r & _ & _ & I & C & N & _)%replaced_facts. by exists r.
  - intros p f f' (next & _ & _ & _ & N & T & _)%emitted_facts. by rewrite T.
  - intros f f' (c & g & _ & ->)%reasoning_step_inv. by exists c.
  - intros f f' (sw & g & I & ->)%thought_switch_inv. by exists sw.
Qed.

(** [unit_accounting] at a concrete run. *)
Lemma unit_accounting_witness :
  (∃ f' r, Plugin.iteration (Toy.processor (Toy.with_min 2) Toy.early_closer)
             (Plugin.enter (Toy.processor (Toy.with_min 2) Toy.early_closer)
                "hi" Toy.zeros) = Ok (Plugin.Replaced f')
      ∧ In r (Plugin.replacements
                (Plugin.config (Toy.processor (Toy.with_min 2) Toy.early_closer)))
      ∧ Plugin.response_chunks f' = [] ++ [r]
      ∧ Plugin.n_thinking_tokens f'
        = 0 + Z.of_nat (length (Toy.toy_encode r)))
  ∧ (∃ f' switch, Sim.thought_switch (Sim.enter (Toy.sim_processor 1 3) None Toy.zeros)
                  = Ok f'
       ∧ In switch ["Wait,"; "Alternatively,"]
       ∧ Sim.current_text (Sim.self f')
         = ["<think>" +:+ String "010" ""] ++ [switch]
       ∧ Sim.n_thinking_steps f' = 0
       ∧ Sim.thought_count (Sim.self f') = 0 + 1).
Proof.
  split.
  - assert (∃ f', Plugin.iteration (Toy.processor (Toy.with_min 2) Toy.early_closer)
                      (Plugin.enter (Toy.processor (Toy.with_min 2) Toy.early_closer)
                         "hi" Toy.zeros) = Ok (Plugin.Replaced f')) as [f' E]
      by (eexists; vm_compute; reflexivity).
    destruct (proj1 unit_accounting _ _ f' E) as (r & H).
    exists f', r. split; [exact E|exact H].
  - assert (∃ f', Sim.thought_switch (Sim.enter (Toy.sim_processor 1 3) None Toy.zeros)
                  = Ok f') as [f' E]
      by (eexists; vm_compute; reflexivity).
    destruct (proj2 (proj2 (proj2 unit_accounting)) _ f' E) as (sw & H).
    exists f', sw. split; [exact E|exact H].
Defined.

End Accounting.

Section ClosedSpan.
Import Random.

(** C2, as stated, fails for the token-id variant: the model proposes the
    end-think token at once, it is replaced (and recorded as seen), two
    tokens follow, and the end of the sequence stops the loop.  No chunk
    is the marker, and the text that [run] returns does not contain it. *)
Lemma span_left_open :
  ∃ f, Plugin.while_loop 4 (Toy.processor (Toy.with_min 2) Toy.early_closer)
         (Plugin.enter (Toy.processor (Toy.with_min 2) Toy.early_closer)
            "hi" Toy.zeros) = Some (Ok f)
    ∧ Plugin.response_chunks f = [String "010" "Wait, but"; "o"; "k"]
    ∧ Str.contains "</think>" (Plugin.full_response f) = false
    ∧ Plugin.run 4 (Toy.toy_hub Toy.early_closer) "" "hi" "m" (Toy.with_min 2)
        Toy.zeros = Some ("k", 2).
Proof. eexists. split; [vm_compute; reflexivity|]. by vm_compute. Qed.

(** C2, amended.  Simulated variant: when [reasoning_effort] returns, the
    end marker is the last element of the buffer, the joined text ends
    with it, and so does the returned text when the marker is not empty
    and has no blank at either end.  Token-id variant: the loop stops only
    with the flag set and the minimum reached, after the model has
    proposed the end-think token in some pass; the marker itself need not
    be in the chunks. *)
Theorem closed_span :
  (∀ (fuel : nat) (p : Sim.ThinkDeeperProcessor)
     (messages : option (list (gmap string string))) (g : rng) (f : Sim.Frame),
     Sim.run_loop fuel p messages g = Some (Ok f) →
     last (Sim.current_text (Sim.self f)) = Some (Sim.end_think_token (Sim.config p))
     ∧ (∃ pre, Str.join " " (Sim.current_text (Sim.self f))
               = pre +:+ Sim.end_think_token (Sim.config p))
     ∧ (Sim.end_think_token (Sim.config p) ≠ "" →
        Str.strip (Sim.end_think_token (Sim.config p))
          = Sim.end_think_token (Sim.config p) →
        ∃ pre, Sim.response_of f = pre +:+ Sim.end_think_token (Sim.config p)))
  ∧ (∀ (fuel : nat) (p : Plugin.ThinkDeeperProcessor) (question : string)
       (g : rng) (f : Plugin.Frame),
       Plugin.while_loop fuel p (Plugin.enter p question g) = Some (Ok f) →
       Plugin.seen_end_think f = true
       ∧ Plugin.min_thinking_tokens (Plugin.config p) ≤ Plugin.n_thinking_tokens f
       ∧ Plugin.proposed p (Plugin.enter p question g)).
Proof.
  split.
  - intros fuel p messages g f. unfold Sim.run_loop.
    destruct (Sim.while_loop _ _) as [[f0|e]|] eqn:W; [|done..].
    intros [= <-]. apply while_loop_post in W as (_ & S & chunks & _ & T).
    assert (Sim.close_think f0 = f0) as -> by (unfold Sim.close_think; by rewrite S).
    cbn in T. rewrite app_comm_cons in T.
    destruct (join_snoc " "
                ((Sim.start_think_token (Sim.config p) +:+ String "010" ""
                    +:+ Sim.prefill (Sim.config p)) :: chunks)
                (Sim.end_think_token (Sim.config p)))
      as [pre J].
    unfold Sim.response_of. rewrite T. split; [apply last_snoc|].
    split; [by exists pre|]. intros N F. rewrite J. by apply strip_app.
  - intros fuel p question g f.
    apply (plugin_loop_post fuel p O); [constructor|done].
Qed.

(** [closed_span] at a concrete run. *)
Lemma closed_span_witness :
  (∃ f, Sim.run_loop 6 (Toy.sim_processor 1 3) None Toy.zeros = Some (Ok f)
     ∧ last (Sim.current_text (Sim.self f)) = Some "</think>"
     ∧ (∃ pre, Str.join " " (Sim.current_text (Sim.self f)) = pre +:+ "</think>")
     ∧ ∃ pre, Sim.response_of f = pre +:+ "</think>")
  ∧ (∃ f, Plugin.while_loop 7 (Toy.processor (Toy.with_min 0) Toy.answerer)
            (Plugin.enter (Toy.processor (Toy.with_min 0) Toy.answerer)
               "hi" Toy.zeros) = Some (Ok f)
       ∧ Plugin.seen_end_think f = true
       ∧ 0 ≤ Plugin.n_thinking_tokens f
       ∧ Plugin.proposed (Toy.processor (Toy.with_min 0) Toy.answerer)
           (Plugin.enter (Toy.processor (Toy.with_min 0) Toy.answerer)
              "hi" Toy.zeros)).
Proof.
  split.
  - eexists. split; [vm_compute; reflexivity|].
    match goal with
    | |- context [Sim.response_of ?f] =>
        destruct (proj1 closed_span 6%nat (Toy.sim_processor 1 3) None Toy.zeros f
                    ltac:(vm_compute; reflexivity)) as (L & J & R)
    end.
    split; [exact L|]. split; [exact J|]. apply R; [discriminate|reflexivity].
  - eexists. split; [vm_compute; reflexivity|].
    match goal with
    | |- context [Plugin.seen_end_think ?f] =>
        exact (proj2 closed_span 7%nat (Toy.processor (Toy.with_min 0) Toy.answerer)
                 "hi" Toy.zeros f ltac:(vm_compute; reflexivity))
    end.
Defined.

End ClosedSpan.

Section Configuration.
Import Random.

Lemma sim_init_inv (cfg : Sim.Config) (p : Sim.ThinkDeeperProcessor) :
  Sim.init cfg = Ok p →
  Sim.config p = cfg
  ∧ Sim.thought_count p = 0
  ∧ Sim.self_thought_switch_tokens p = Sim.thought_switch_tokens cfg
  ∧ Sim.thought_switch_tokens cfg ≠ [].
Proof.
  unfold Sim.init. destruct (Sim.thought_switch_tokens cfg) eqn:E; [done|].
  cbn. by intros [= <-].
Qed.

Lemma sim_init_total (cfg : Sim.Config) :
  Sim.thought_switch_tokens cfg ≠ [] → ∃ p, Sim.init cfg = Ok p.
Proof.
  unfold Sim.init. destruct (Sim.thought_switch_tokens cfg); [done|].
  cbn. by eexists.
Qed.

(** C5, as stated, fails.  With [min_thinking_tokens = 5] above
    [max_thinking_tokens = 3] the simulated variant raises nothing and
    returns a text.  With an empty list of replacements the token-id
    constructor succeeds, and the exception comes from the first pass of
    the loop.  With markers that the tokenizer splits into characters the
    token-id constructor succeeds too, and takes the tokens of the first
    two characters for the markers. *)
Lemma invalid_configuration_not_rejected :
  Sim.thinkdeeper_decode 6 None (Toy.with_bounds 5 3) Toy.zeros
    = Some (Ok ("<think>" +:+ String "010" " Wait, Wait, </think>"))
  ∧ Plugin.init (Plugin.resolve_config (Toy.with_replacements []))
      Toy.toy_tokenizer Toy.answerer
    = Ok (Toy.processor (Toy.with_replacements []) Toy.answerer)
  ∧ Plugin.iteration (Toy.processor (Toy.with_replacements []) Toy.answerer)
      (Plugin.enter (Toy.processor (Toy.with_replacements []) Toy.answerer)
         "hi" Toy.zeros)
    = Raise (IndexError "Cannot choose from an empty sequence")
  ∧ ∃ p, Plugin.init (Plugin.resolve_config (Toy.with_markers "[think]" "[/think]"))
           Toy.toy_tokenizer Toy.answerer = Ok p
      ∧ Plugin._start_think_token p = Toy.char_token "["
      ∧ Plugin.self_end_think_token p = Toy.char_token "t".
Proof.
  split; [by vm_compute|]. split; [vm_compute; reflexivity|].
  split; [vm_compute; reflexivity|].
  eexists. split; [vm_compute; reflexivity|]. by vm_compute.
Qed.

(** C5, amended: the bounds are not validated.  Whatever the bounds (also
    with the minimum above the maximum), the simulated variant returns a
    text when [thought_switch_tokens] is not empty; when it is empty the
    constructor raises, before the loop, for every fuel.  The token-id
    constructor raises exactly when the encoding of the two markers has
    fewer than three tokens; it looks neither at the replacements nor at
    the minimum. *)
Theorem configuration_checks :
  (∀ (messages : option (list (gmap string string)))
     (request_config : option Sim.RequestConfig) (g : rng),
     Sim.thought_switch_tokens (Sim.resolve_config request_config) = [] →
     ∃ msg, Sim.init (Sim.resolve_config request_config) = Raise (ValueError msg)
       ∧ ∀ fuel, Sim.thinkdeeper_decode fuel messages request_config g
                 = Some (Raise (ValueError msg)))
  ∧ (∀ (messages : option (list (gmap string string)))
       (request_config : option Sim.RequestConfig) (g : rng),
       Sim.thought_switch_tokens (Sim.resolve_config request_config) ≠ [] →
       ∃ text,
         Sim.thinkdeeper_decode
           (Sim.iteration_bound (Sim.resolve_config request_config))
           messages request_config g = Some (Ok text))
  ∧ (∀ (cfg : Plugin.Config) (tk : Plugin.Tokenizer) (m : Plugin.Model),
       (3 ≤ length (Plugin.encode tk (Plugin.start_think_token cfg
                                       +:+ Plugin.end_think_token cfg)))%nat
       ↔ ∃ p, Plugin.init cfg tk m = Ok p).
Proof.
  repeat apply conj.
  - intros messages rc g E. unfold Sim.thinkdeeper_decode, Sim.init.
    rewrite E. cbn. by eexists.
  - intros messages rc g N. unfold Sim.thinkdeeper_decode.
    destruct (sim_init_total _ N) as [p I]. rewrite I.
    apply sim_init_inv in I as (C & T & W & _).
    unfold Sim.reasoning_effort, Sim.run_loop.
    destruct (while_loop_terminates
                (Sim.iteration_bound (Sim.resolve_config rc))
                (Sim.enter p (Some (default [] messages)) g)) as [f ->].
    + cbn. by rewrite W.
    + done.
    + unfold Sim.remaining, Sim.iteration_bound. cbn. rewrite C, T. lia.
    + by eexists.
  - intros cfg tk m. unfold Plugin.init.
    destruct (Plugin.encode tk _) as [|t0 [|t1 [|t2 ts]]]; cbn;
      (split; [intros ?; try lia; by eexists | intros [p H]; try done; lia]).
Qed.

(** [configuration_checks] at a concrete run. *)
Lemma configuration_checks_witness :
  (∃ msg, Sim.init (Sim.resolve_config Toy.without_switches)
          = Raise (ValueError msg)
     ∧ ∀ fuel, Sim.thinkdeeper_decode fuel None Toy.without_switches Toy.zeros
               = Some (Raise (ValueError msg)))
  ∧ (∃ text, Sim.thinkdeeper_decode
               (Sim.iteration_bound (Sim.resolve_config (Toy.with_bounds 5 3)))
               None (Toy.with_bounds 5 3) Toy.zeros = Some (Ok text))
  ∧ (∃ p, Plugin.init (Plugin.resolve_config (Toy.with_replacements []))
            Toy.toy_tokenizer Toy.answerer = Ok p).
Proof.
  split; [|split].
  - apply (proj1 configuration_checks None Toy.without_switches Toy.zeros).
    reflexivity.
  - apply (proj1 (proj2 configuration_checks) None (Toy.with_bounds 5 3) Toy.zeros).
    discriminate.
  - apply (proj2 (proj2 configuration_checks)
             (Plugin.resolve_config (Toy.with_replacements []))
             Toy.toy_tokenizer Toy.answerer).
    vm_compute. lia.
Defined.

End Configuration.

Section Truncation.

(** C7 fails on the code: the chunks hold only generated text, and line
    115 still cuts [prefix_len] characters off their concatenation.  The
    model generates "</think>hello" for a question whose template decodes
    to 11 characters, and [reasoning_effort] returns "lo". *)
Theorem generated_text_truncated :
  ∃ f, Plugin.while_loop 7 (Toy.processor (Toy.with_min 0) Toy.answerer)
         (Plugin.enter (Toy.processor (Toy.with_min 0) Toy.answerer)
            "hi" Toy.zeros) = Some (Ok f)
    ∧ Plugin.response_chunks f = ["</think>"; "h"; "e"; "l"; "l"; "o"]
    ∧ Plugin.full_response f = "</think>hello"
    ∧ Plugin.prefix_len (Toy.processor (Toy.with_min 0) Toy.answerer) "hi" = 11%nat
    ∧ Plugin.reasoning_effort 7 (Toy.processor (Toy.with_min 0) Toy.answerer)
        "hi" Toy.zeros = Some (Ok "lo")
    ∧ Plugin.run 7 (Toy.toy_hub Toy.answerer) "" "hi" "m" (Toy.with_min 0)
        Toy.zeros = Some ("lo", 3).
Proof. eexists. split; [vm_compute; reflexivity|]. by vm_compute. Qed.

End Truncation.

Section Failures.
Import Random.

(** A fault of the backend after [k] passes ends the loop with that
    exception, whatever the chunks gathered so far. *)
Lemma fault_ends_loop (p : Plugin.ThinkDeeperProcessor) (k fuel : nat)
    (f f' : Plugin.Frame) (e : exn) :
  Plugin.passes p k f f' →
  Plugin.forward (Plugin.model p) (Plugin.kv f' ++ Plugin.tokens f')
    (Plugin.calls f') = Plugin.Fault e →
  (k < fuel)%nat →
  Plugin.while_loop fuel p f = Some (Raise e).
Proof.
  intros P. revert fuel.
  induction P as [f | k f f1 f2 I P IH | k f f1 f2 I P IH]; intros fuel F L;
    (destruct fuel as [|fuel]; [lia|]); cbn.
  - unfold Plugin.iteration. by rewrite F.
  - rewrite I. apply IH; [done|lia].
  - rewrite I. apply IH; [done|lia].
Qed.

(** C8: when the backend fails during generation, [run] of the token-id
    variant returns the fallback text built from the exception alone and
    a count of 0, never the chunks gathered before the failure; in the
    simulated variant [thinkdeeper_decode] re-raises the exception. *)
Theorem backend_failure_reported :
  (∀ (fuel : nat) (hub : Plugin.Hub) (system_prompt initial_query model_id : string)
     (request_config : option (option Plugin.RequestConfig)) (g : rng)
     (tk : Plugin.Tokenizer) (llm : Plugin.Model) (p : Plugin.ThinkDeeperProcessor)
     (k : nat) (f : Plugin.Frame) (e : exn),
     Plugin.tokenizer_from_pretrained hub model_id = Ok tk →
     Plugin.model_from_pretrained hub model_id = Ok llm →
     Plugin.init (Plugin.resolve_config request_config) tk llm = Ok p →
     Plugin.passes p k (Plugin.enter p initial_query g) f →
     Plugin.forward (Plugin.model p) (Plugin.kv f ++ Plugin.tokens f)
       (Plugin.calls f) = Plugin.Fault e →
     (k < fuel)%nat →
     Plugin.run fuel hub system_prompt initial_query model_id request_config g
     = Some ("Error in enhanced thinking process: " +:+ str_exn e, 0))
  ∧ (∀ (fuel : nat) (messages : option (list (gmap string string)))
       (request_config : option Sim.RequestConfig) (g : rng) (e : exn),
       Sim.init (Sim.resolve_config request_config) = Raise e
       ∨ (∃ p, Sim.init (Sim.resolve_config request_config) = Ok p
            ∧ Sim.reasoning_effort fuel p (Some (default [] messages)) g
              = Some (Raise e)) →
       Sim.thinkdeeper_decode fuel messages request_config g = Some (Raise e)).
Proof.
  split.
  - intros fuel hub sp q mid rc g tk llm p k f e Htk Hllm Hp P F L.
    unfold Plugin.run, Plugin.attempt. rewrite Htk, Hllm, Hp.
    unfold Plugin.reasoning_effort.
    by rewrite (fault_ends_loop p k fuel _ f e P F L).
  - intros fuel messages rc g e [I | (p & I & R)];
      unfold Sim.thinkdeeper_decode; by rewrite I.
Qed.

(** [backend_failure_reported] at a concrete run. *)
Lemma backend_failure_reported_witness :
  Plugin.run 3 (Toy.toy_hub Toy.crasher) "" "hi" "m" (Toy.with_min 0) Toy.zeros
    = Some ("Error in enhanced thinking process: CUDA out of memory", 0)
  ∧ Sim.thinkdeeper_decode 6 None Toy.without_switches Toy.zeros
    = Some (Raise (ValueError "max() arg is an empty sequence")).
Proof.
  split.
  - eapply (proj1 backend_failure_reported 3%nat (Toy.toy_hub Toy.crasher)
              "" "hi" "m" (Toy.with_min 0) Toy.zeros Toy.toy_tokenizer
              Toy.crasher (Toy.processor (Toy.with_min 0) Toy.crasher) 2%nat _
              (BackendError "CUDA out of memory")).
    + reflexivity.
    + reflexivity.
    + vm_compute; reflexivity.
    + eapply Plugin.passes_emitted; [vm_compute; reflexivity|].
      eapply Plugin.passes_emitted; [vm_compute; reflexivity|].
      apply Plugin.passes_O.
    + vm_compute; reflexivity.
    + lia.
  - apply (proj2 backend_failure_reported 6%nat None Toy.without_switches
             Toy.zeros (ValueError "max() arg is an empty sequence")).
    left. reflexivity.
Defined.

End Failures.


(** * Further properties of the simulated variant *)

Section SimulatedRun.
Import Random Sim.

(** With the flag unset and no step counted, line 72 always chooses the
    thought switch: [n_thinking_steps == 0] holds whatever the draw. *)
Lemma iteration_at_zero (f : Frame) (fl : Flow) :
  seen_end_think f = false →
  n_thinking_steps f = 0 →
  iteration f = Ok fl →
  (force_end f = true ∧
   fl = ForcedEnd (set_seen_end_think true
                     (append_text (end_think_token (config (self f))) f)))
  ∨ (force_end f = false ∧
     ∃ sw g g', In sw (self_thought_switch_tokens (self f))
       ∧ fl = natural_end (switched sw g' (set_gen g f))).
Proof.
  intros Hs Hz H. unfold iteration in H. rewrite Hs in H. cbn [negb] in H.
  rewrite andb_true_r in H. destruct (force_end f) eqn:F.
  - left. split; [done|]. by injection H as <-.
  - right. split; [done|]. unfold decide_switch in H. rewrite Hs, Hz in H.
    destruct (random (gen f)) as [k g]. rewrite orb_true_r in H.
    destruct (thought_switch (set_gen g f)) as [f2|e] eqn:T; [|done].
    injection H as <-. apply thought_switch_inv in T as (sw & g' & I & ->).
    by exists sw, g, g'.
Qed.

Lemma only_switches_from (fuel : nat) (f f' : Frame) :
  seen_end_think f = false →
  n_thinking_steps f = 0 →
  while_loop fuel f = Some (Ok f') →
  n_thinking_steps f' = 0
  ∧ ∃ chunks, Forall (λ c, In c (self_thought_switch_tokens (self f))) chunks
      ∧ current_text (self f')
        = current_text (self f) ++ chunks ++ [end_think_token (config (self f))]
      ∧ thought_count (self f')
        = thought_count (self f) + Z.of_nat (length chunks).
Proof.
  revert f. induction fuel as [|fuel IH]; intros f Hs Hz; [done|]. cbn.
  destruct (iteration f) as [fl|e] eqn:I; [|done].
  apply (iteration_at_zero f fl Hs Hz) in I
    as [[_ ->] | (_ & sw & g & g' & Hsw & ->)].
  - intros [= <-]. cbn. split; [done|]. exists []. cbn.
    split; [constructor|]. split; [done|lia].
  - destruct (natural_end_inv (switched sw g' (set_gen g f)))
      as [(g2 & _ & ->) | (g2 & ->)].
    + intros [= <-]. cbn. split; [done|]. exists [sw]. cbn.
      split; [by repeat constructor|]. split; [by rewrite <- app_assoc|lia].
    + intros H. apply IH in H as (Hz' & chunks & A & T & C); [|done..].
      split; [done|]. exists (sw :: chunks). cbn in *.
      split; [by constructor|]. split; [by rewrite T, <- app_assoc|].
      rewrite C. lia.
Qed.

(** X1: from the entry of [reasoning_effort] the loop never takes the
    reasoning-step branch.  Whatever the configuration and the draws, when
    the loop exits [n_thinking_steps] is still 0, every chunk between the
    seed and the end marker is one of the thought-switch phrases, and
    [thought_count] has grown by the number of these chunks. *)
Theorem only_thought_switches (fuel : nat) (p : ThinkDeeperProcessor)
    (messages : option (list (gmap string string))) (g : rng) (f : Frame) :
  while_loop fuel (enter p messages g) = Some (Ok f) →
  n_thinking_steps f = 0
  ∧ ∃ chunks, Forall (λ c, In c (self_thought_switch_tokens p)) chunks
      ∧ current_text (self f)
        = (start_think_token (config p) +:+ String "010" "" +:+ prefill (config p))
            :: chunks ++ [end_think_token (config p)]
      ∧ thought_count (self f) = thought_count p + Z.of_nat (length chunks).
Proof. intros H. by apply only_switches_from in H. Qed.

(** [only_thought_switches] at a concrete run. *)
Lemma only_thought_switches_witness :
  ∃ f, while_loop 6 (enter (Toy.sim_processor 0 3) None Toy.zeros) = Some (Ok f)
    ∧ n_thinking_steps f = 0
    ∧ ∃ chunks, Forall (λ c, In c ["Wait,"; "Alternatively,"]) chunks
        ∧ current_text (self f)
          = ("<think>" +:+ String "010" "" +:+ "") :: chunks ++ ["</think>"]
        ∧ thought_count (self f) = 0 + Z.of_nat (length chunks).
Proof.
  eexists. split; [vm_compute; reflexivity|].
  match goal with
  | |- context [n_thinking_steps ?f] =>
      exact (only_thought_switches 6 (Toy.sim_processor 0 3) None Toy.zeros f
               ltac:(vm_compute; reflexivity))
  end.
Defined.

Lemma forced_switches_from (fuel : nat) (f : Frame) :
  seen_end_think f = false →
  n_thinking_steps f = 0 →
  0 < min_thinking_tokens (config (self f)) →
  0 < max_thinking_tokens (config (self f)) →
  self_thought_switch_tokens (self f) ≠ [] →
  (Z.to_nat (max_thoughts (config (self f)) - thought_count (self f)) < fuel)%nat →
  ∃ f' chunks,
    while_loop fuel f = Some (Ok f')
    ∧ length chunks
      = Z.to_nat (max_thoughts (config (self f)) - thought_count (self f))
    ∧ Forall (λ c, In c (self_thought_switch_tokens (self f))) chunks
    ∧ current_text (self f')
      = current_text (self f) ++ chunks ++ [end_think_token (config (self f))]
    ∧ thought_count (self f')
      = Z.max (thought_count (self f)) (max_thoughts (config (self f)))
    ∧ n_thinking_steps f' = 0.
Proof.
  revert f. induction fuel as [|fuel IH]; intros f Hs Hz Mn Mx N L; [lia|]. cbn.
  destruct (iteration_total f N) as [fl I]. rewrite I.
  apply (iteration_at_zero f fl Hs Hz) in I
    as [[F ->] | (F & sw & g & g' & Hsw & ->)];
    unfold force_end in F; rewrite Hz in F.
  - apply orb_true_iff in F as [F | F]; [apply Z.leb_le in F; lia|].
    apply Z.leb_le in F. eexists. exists []. cbn.
    split; [done|]. split; [lia|]. split; [constructor|].
    split; [done|]. split; [cbn; lia|done].
  - apply orb_false_iff in F as [_ F]. apply Z.leb_gt in F.
    unfold natural_end. cbn.
    rewrite Hz. destruct (_ <=? 0) eqn:E; [apply Z.leb_le in E; lia|].
    destruct (IH (switched sw g' (set_gen g f))) as (f' & chunks & W & Len & A & T & C & Hz');
      cbn; try done; [lia|].
    cbn in *. exists f', (sw :: chunks). split; [done|]. cbn.
    split; [lia|]. split; [by constructor|].
    split; [by rewrite T, <- app_assoc|]. split; [lia|done].
Qed.

(** X2: with a positive minimum and a positive [max_thinking_tokens] the
    simulated variant always ends by the forced end marker: it appends
    exactly [max_thoughts - thought_count] thought-switch phrases (none when
    the difference is negative), leaves [thought_count] at the larger of
    its old value and [max_thoughts], and counts no thinking step, whatever
    the draws. *)
Theorem forced_after_max_thoughts (fuel : nat) (p : ThinkDeeperProcessor)
    (messages : option (list (gmap string string))) (g : rng) :
  0 < min_thinking_tokens (config p) →
  0 < max_thinking_tokens (config p) →
  self_thought_switch_tokens p ≠ [] →
  (Z.to_nat (max_thoughts (config p) - thought_count p) < fuel)%nat →
  ∃ f chunks,
    while_loop fuel (enter p messages g) = Some (Ok f)
    ∧ length chunks = Z.to_nat (max_thoughts (config p) - thought_count p)
    ∧ Forall (λ c, In c (self_thought_switch_tokens p)) chunks
    ∧ current_text (self f)
      = (start_think_token (config p) +:+ String "010" "" +:+ prefill (config p))
          :: chunks ++ [end_think_token (config p)]
    ∧ thought_count (self f) = Z.max (thought_count p) (max_thoughts (config p))
    ∧ n_thinking_steps f = 0.
Proof.
  intros Mn Mx N L.
  by apply (forced_switches_from fuel (enter p messages g)).
Qed.

(** [forced_after_max_thoughts] at a concrete run. *)
Lemma forced_after_max_thoughts_witness :
  ∃ f chunks,
    while_loop 3 (enter (Toy.sim_processor 1 3) None Toy.zeros) = Some (Ok f)
    ∧ length chunks = Z.to_nat (2 - 0)
    ∧ Forall (λ c, In c ["Wait,"; "Alternatively,"]) chunks
    ∧ current_text (self f)
      = ("<think>" +:+ String "010" "" +:+ "") :: chunks ++ ["</think>"]
    ∧ thought_count (self f) = Z.max 0 2
    ∧ n_thinking_steps f = 0.
Proof.
  apply (forced_after_max_thoughts 3 (Toy.sim_processor 1 3) None Toy.zeros).
  - vm_compute; reflexivity.
  - vm_compute; reflexivity.
  - discriminate.
  - vm_compute; lia.
Defined.

End SimulatedRun.

Section SimulatedReuse.
Import Random Sim.

Lemma forced_at_entry (fuel : nat) (p : ThinkDeeperProcessor)
    (messages : option (list (gmap string string))) (g : rng) :
  max_thinking_tokens (config p) ≤ 0 ∨ max_thoughts (config p) ≤ thought_count p →
  while_loop (S fuel) (enter p messages g)
  = Some (Ok (set_seen_end_think true
                (append_text (end_think_token (config p)) (enter p messages g)))).
Proof.
  intros H. cbn [while_loop]. unfold iteration.
  assert (force_end (enter p messages g) = true) as ->.
  { unfold force_end. cbn. apply orb_true_iff.
    destruct H as [H | H]; [left | right]; by apply Z.leb_le. }
  done.
Qed.

Lemma empty_span_returned (fuel : nat) (p : ThinkDeeperProcessor)
    (messages : option (list (gmap string string))) (g : rng) :
  max_thinking_tokens (config p) ≤ 0 ∨ max_thoughts (config p) ≤ thought_count p →
  reasoning_effort (S fuel) p messages g = Some (Ok (Str.strip (empty_span (config p)))).
Proof.
  intros H. unfold reasoning_effort, run_loop.
  by rewrite (forced_at_entry fuel p messages g H).
Qed.

(** X3: when [max_thinking_tokens] is not positive, or [thought_count] has
    reached [max_thoughts], [reasoning_effort] returns the seed and the end
    marker with nothing between them; it draws no random number and needs
    no thought-switch phrase, so it succeeds even on an instance whose
    phrase list is empty. *)
Theorem nothing_left_to_think (fuel : nat) (p : ThinkDeeperProcessor)
    (messages : option (list (gmap string string))) (g : rng) :
  max_thinking_tokens (config p) ≤ 0 ∨ max_thoughts (config p) ≤ thought_count p →
  reasoning_effort (S fuel) p messages g = Some (Ok (Str.strip (empty_span (config p))))
  ∧ ∃ f, run_loop (S fuel) p messages g = Some (Ok f)
      ∧ current_text (self f)
        = [start_think_token (config p) +:+ String "010" "" +:+ prefill (config p);
           end_think_token (config p)]
      ∧ thought_count (self f) = thought_count p
      ∧ gen f = g.
Proof.
  intros H. unfold reasoning_effort, run_loop.
  rewrite (forced_at_entry fuel p messages g H). split; [done|].
  eexists. by split.
Qed.

(** [nothing_left_to_think] at a concrete run. *)
Lemma nothing_left_to_think_witness :
  reasoning_effort 1 (Toy.sim_processor 1 0) None Toy.zeros
  = Some (Ok (Str.strip (empty_span (config (Toy.sim_processor 1 0))))).
Proof.
  apply (nothing_left_to_think 0 (Toy.sim_processor 1 0) None Toy.zeros).
  left. vm_compute. discriminate.
Defined.

Lemma forced_exit_from (fuel : nat) (f f' : Frame) :
  seen_end_think f = false →
  n_thinking_steps f = 0 →
  0 < min_thinking_tokens (config (self f)) →
  while_loop fuel f = Some (Ok f') →
  config (self f') = config (self f)
  ∧ self_thought_switch_tokens (self f') = self_thought_switch_tokens (self f)
  ∧ (max_thinking_tokens (config (self f)) ≤ 0
     ∨ max_thoughts (config (self f)) ≤ thought_count (self f')).
Proof.
  revert f. induction fuel as [|fuel IH]; intros f Hs Hz Mn; [done|]. cbn.
  destruct (iteration f) as [fl|e] eqn:I; [|done].
  apply (iteration_at_zero f fl Hs Hz) in I
    as [[F ->] | (F & sw & g & g' & Hsw & ->)].
  - intros [= <-]. cbn. split; [done|]. split; [done|].
    unfold force_end in F. rewrite Hz in F.
    apply orb_true_iff in F as [F | F]; apply Z.leb_le in F; [by left | by right].
  - unfold natural_end. cbn. rewrite Hz.
    destruct (_ <=? 0) eqn:E; [apply Z.leb_le in E; lia|].
    intros H. by apply IH in H.
Qed.

(** X4: [thought_count] lives on the instance and is not reset.  With a
    positive minimum, once [reasoning_effort] has returned, every further
    call on the same instance returns the empty thinking span, whatever its
    messages and draws. *)
Theorem second_call_thinks_nothing (fuel fuel' : nat) (p : ThinkDeeperProcessor)
    (messages messages' : option (list (gmap string string))) (g g' : rng)
    (f : Frame) :
  0 < min_thinking_tokens (config p) →
  run_loop fuel p messages g = Some (Ok f) →
  reasoning_effort (S fuel') (self f) messages' g'
  = Some (Ok (Str.strip (empty_span (config p)))).
Proof.
  intros Mn. unfold run_loop.
  destruct (while_loop fuel (enter p messages g)) as [[f0|e]|] eqn:W; [|done..].
  intros [= <-].
  pose proof (forced_exit_from fuel (enter p messages g) f0 eq_refl eq_refl Mn W)
    as (C & _ & F).
  pose proof (while_loop_post fuel _ f0 W) as (_ & Hs & _).
  assert (close_think f0 = f0) as -> by (unfold close_think; by rewrite Hs).
  cbn in C, F. rewrite <- C in *.
  by apply empty_span_returned.
Qed.

(** [second_call_thinks_nothing] at a concrete run. *)
Lemma second_call_thinks_nothing_witness :
  ∃ f, run_loop 3 (Toy.sim_processor 1 3) None Toy.zeros = Some (Ok f)
    ∧ reasoning_effort 1 (self f) None Toy.zeros
      = Some (Ok (Str.strip (empty_span (config (Toy.sim_processor 1 3))))).
Proof.
  eexists. split; [vm_compute; reflexivity|].
  match goal with
  | |- context [self ?f] =>
      exact (second_call_thinks_nothing 3 0 (Toy.sim_processor 1 3) None None
               Toy.zeros Toy.zeros f ltac:(vm_compute; reflexivity)
               ltac:(vm_compute; reflexivity))
  end.
Defined.

Lemma lstrip_keep (a x : string) :
  a ≠ "" → Str.lstrip a = a → Str.lstrip (a +:+ x) = a +:+ x.
Proof.
  destruct a as [|c a]; [done|]. intros _ L. rewrite str_app_cons. cbn in *.
  destruct (Str.isspace c); [|done].
  pose proof (lstrip_length a) as B. rewrite L in B. cbn in B. lia.
Qed.

Lemma strip_between (a m b : string) :
  a ≠ "" → Str.lstrip a = a → b ≠ "" → Str.rstrip b = b →
  Str.strip (a +:+ m +:+ b) = a +:+ m +:+ b.
Proof.
  intros Na La Nb Rb. unfold Str.strip. rewrite (lstrip_keep a _ Na La).
  rewrite <- (str_app_assoc a m b). by apply rstrip_app.
Qed.

Lemma join_cons_snoc (sep x y : string) (l : list string) :
  ∃ middle, Str.join sep (x :: l ++ [y]) = x +:+ middle +:+ y.
Proof.
  destruct l as [|c l].
  - by exists sep.
  - destruct (join_snoc sep (c :: l) y) as [pre J].
    exists (sep +:+ pre).
    change (Str.join sep (x :: (c :: l) ++ [y]))
      with (x +:+ sep +:+ Str.join sep ((c :: l) ++ [y])).
    by rewrite J, (str_app_assoc sep pre y).
Qed.

(** X5: when neither marker is empty or has a blank at an end, [strip]
    removes nothing: the returned text is the chunks of the buffer joined by
    single blanks, it starts with the start marker and ends with the end
    marker. *)
Theorem response_is_joined_buffer (fuel : nat) (p : ThinkDeeperProcessor)
    (messages : option (list (gmap string string))) (g : rng) (f : Frame) :
  start_think_token (config p) ≠ "" →
  Str.strip (start_think_token (config p)) = start_think_token (config p) →
  end_think_token (config p) ≠ "" →
  Str.strip (end_think_token (config p)) = end_think_token (config p) →
  run_loop fuel p messages g = Some (Ok f) →
  response_of f = Str.join " " (current_text (self f))
  ∧ ∃ middle, response_of f
      = start_think_token (config p) +:+ middle +:+ end_think_token (config p).
Proof.
  intros Na [La _]%strip_fixed Nb [_ Rb]%strip_fixed. unfold run_loop.
  destruct (while_loop fuel (enter p messages g)) as [[f0|e]|] eqn:W; [|done..].
  intros [= <-]. apply while_loop_post in W as (_ & Hs & chunks & _ & T).
  assert (close_think f0 = f0) as -> by (unfold close_think; by rewrite Hs).
  cbn in T. unfold response_of. rewrite T.
  destruct (join_cons_snoc " "
              (start_think_token (config p) +:+ String "010" "" +:+ prefill (config p))
              (end_think_token (config p)) chunks) as [mid J].
  change ([?x] ++ chunks ++ ?y) with (x :: chunks ++ y). rewrite J.
  rewrite (str_app_assoc (start_think_token (config p))).
  rewrite <- (str_app_assoc (String "010" "" +:+ prefill (config p)) mid).
  rewrite (strip_between _ _ _ Na La Nb Rb).
  split; [done|]. by eexists.
Qed.

(** [response_is_joined_buffer] at a concrete run. *)
Lemma response_is_joined_buffer_witness :
  ∃ f, run_loop 3 (Toy.sim_processor 1 3) None Toy.zeros = Some (Ok f)
    ∧ response_of f = Str.join " " (current_text (self f))
    ∧ ∃ middle, response_of f = "<think>" +:+ middle +:+ "</think>".
Proof.
  eexists. split; [vm_compute; reflexivity|].
  match goal with
  | |- context [response_of ?f] =>
      exact (response_is_joined_buffer 3 (Toy.sim_processor 1 3) None Toy.zeros f
               ltac:(discriminate) ltac:(vm_compute; reflexivity)
               ltac:(discriminate) ltac:(vm_compute; reflexivity)
               ltac:(vm_compute; reflexivity))
  end.
Defined.

End SimulatedReuse.

Section ThoughtSwitchTest.
Import Sim.

Lemma startswith_refl (p : string) : Str.startswith p p = true.
Proof. induction p as [|c p IH]; [done|]. cbn. by rewrite Ascii.eqb_refl. Qed.

Lemma contains_suffix (pre p : string) : Str.contains p (pre +:+ p) = true.
Proof.
  induction pre as [|c pre IH].
  - change ("" +:+ p) with p. destruct p; cbn; [done|].
    by rewrite Ascii.eqb_refl, startswith_refl.
  - rewrite str_app_cons. cbn. rewrite IH. apply orb_true_r.
Qed.

Lemma contains_empty (s : string) : Str.contains s "" = true → s = "".
Proof. destruct s; [done|]. by cbn. Qed.

Lemma last_items_snoc {A} (k : nat) (l : list A) (x : A) :
  ∃ l', last_items k (l ++ [x]) = l' ++ [x].
Proof.
  destruct k as [|k]; [by exists l|]. unfold last_items.
  rewrite length_app. cbn [length].
  exists (drop (length l + 1 - S k) l). apply drop_app_le. lia.
Qed.

Lemma last_items_window {A} (old recent : list A) :
  recent ≠ [] → last_items (length recent) (old ++ recent) = recent.
Proof.
  intros N. unfold last_items. destruct (length recent) eqn:E.
  - by destruct recent.
  - rewrite <- E, length_app.
    replace (length old + length recent - length recent)%nat
      with (length old) by lia.
    by rewrite drop_app_length.
Qed.

(** X6: [is_thought_switch] answers true whenever the newest chunk of the
    buffer is one of the thought-switch phrases, whatever
    [max_sequence_length] is and whatever text is passed to it. *)
Theorem switch_detected_when_newest (p : ThinkDeeperProcessor)
    (text_chunk switch : string) :
  last (current_text p) = Some switch →
  In switch (self_thought_switch_tokens p) →
  is_thought_switch p text_chunk = true.
Proof.
  intros [l E]%last_Some I. unfold is_thought_switch. rewrite E.
  destruct (last_items_snoc (max_sequence_length p) l switch) as [l' ->].
  destruct (join_snoc " " l' switch) as [pre ->].
  apply existsb_exists. exists switch. split; [done|]. apply contains_suffix.
Qed.

(** [switch_detected_when_newest] at a concrete buffer. *)
Lemma switch_detected_when_newest_witness :
  ∃ f, thought_switch (enter (Toy.sim_processor 1 3) None Toy.zeros) = Ok f
    ∧ is_thought_switch (self f) "" = true.
Proof.
  eexists. split; [vm_compute; reflexivity|].
  eapply (switch_detected_when_newest _ "" "Wait,").
  - vm_compute; reflexivity.
  - left. reflexivity.
Defined.

(** X7: on an empty buffer, as a fresh instance has it, [is_thought_switch]
    answers true exactly when the empty text is among the thought-switch
    phrases (the empty text occurs in every text). *)
Theorem switch_on_empty_buffer (p : ThinkDeeperProcessor) (text_chunk : string) :
  current_text p = [] →
  is_thought_switch p text_chunk = true ↔ In "" (self_thought_switch_tokens p).
Proof.
  intros E. unfold is_thought_switch. rewrite E.
  assert (last_items (max_sequence_length p) (@nil string) = []) as ->
    by (by destruct (max_sequence_length p)).
  cbn [Str.join]. rewrite existsb_exists. split.
  - intros (s & I & C). apply contains_empty in C. by subst.
  - intros I. by exists "".
Qed.

(** [switch_on_empty_buffer] at the instance the constructor builds. *)
Lemma switch_on_empty_buffer_witness :
  is_thought_switch (Toy.sim_processor 1 3) "Wait," = true
  ↔ In "" (self_thought_switch_tokens (Toy.sim_processor 1 3)).
Proof. apply (switch_on_empty_buffer (Toy.sim_processor 1 3) "Wait,"). reflexivity. Defined.

(** X8: [is_thought_switch] looks at the last [max_sequence_length] chunks
    only: two instances with the same phrases and the same positive
    [max_sequence_length], whose buffers end with the same
    [max_sequence_length] chunks, get the same answer. *)
Theorem switch_test_window (p q : ThinkDeeperProcessor) (text_chunk : string)
    (old_p old_q recent : list string) :
  self_thought_switch_tokens p = self_thought_switch_tokens q →
  max_sequence_length p = length recent →
  max_sequence_length q = length recent →
  recent ≠ [] →
  current_text p = old_p ++ recent →
  current_text q = old_q ++ recent →
  is_thought_switch p text_chunk = is_thought_switch q text_chunk.
Proof.
  intros T Mp Mq N Cp Cq. unfold is_thought_switch.
  rewrite T, Mp, Mq, Cp, Cq. by rewrite !last_items_window.
Qed.

(** [switch_test_window] at two concrete buffers. *)
Lemma switch_test_window_witness :
  is_thought_switch (Toy.sim_with_text ["Wait,"; "So, this."]) ""
  = is_thought_switch (Toy.sim_with_text ["So, this."]) "".
Proof.
  apply (switch_test_window (Toy.sim_with_text ["Wait,"; "So, this."])
           (Toy.sim_with_text ["So, this."]) "" ["Wait,"] [] ["So, this."]);
    try reflexivity.
  discriminate.
Defined.

Lemma fold_max_spec (ns : list nat) (n : nat) :
  (n ≤ fold_left Nat.max ns n)%nat
  ∧ Forall (λ k, (k ≤ fold_left Nat.max ns n)%nat) ns
  ∧ (fold_left Nat.max ns n = n ∨ In (fold_left Nat.max ns n) ns).
Proof.
  revert n. induction ns as [|k ns IH]; intros n; cbn.
  - split; [lia|]. split; [constructor|by left].
  - destruct (IH (Nat.max n k)) as (L & F & D).
    split; [lia|]. split; [constructor; [lia|done]|].
    destruct D as [D | D]; [|by right; right].
    rewrite D. destruct (Nat.max_spec n k) as [[_ ->] | [_ ->]]; [right|]; by left.
Qed.

(** X9: the constructor sets [max_sequence_length] to the largest word
    count among the thought-switch phrases: no phrase has more words, and
    some phrase has exactly that many. *)
Theorem max_sequence_length_is_largest (cfg : Config) (p : ThinkDeeperProcessor) :
  init cfg = Ok p →
  Forall (λ t, (length (Str.split t) ≤ max_sequence_length p)%nat)
         (thought_switch_tokens cfg)
  ∧ ∃ t, In t (thought_switch_tokens cfg)
      ∧ max_sequence_length p = length (Str.split t).
Proof.
  unfold init. destruct (thought_switch_tokens cfg) as [|t ts]; [done|].
  cbn [map]. intros [= <-]. cbn [max_sequence_length].
  destruct (fold_max_spec (map (λ t, length (Str.split t)) ts)
              (length (Str.split t))) as (L & F & D).
  split.
  - constructor; [done|]. by rewrite Forall_map in F.
  - destruct D as [D | D]; [exists t; split; [by left|done]|].
    apply in_map_iff in D as (t' & E & I). exists t'. split; [by right|done].
Qed.

(** [max_sequence_length_is_largest] at the default configuration. *)
Lemma max_sequence_length_is_largest_witness :
  ∃ p, init DEFAULT_CONFIG = Ok p
    ∧ Forall (λ t, (length (Str.split t) ≤ max_sequence_length p)%nat)
             ["Wait,"; "Alternatively,"]
    ∧ ∃ t, In t ["Wait,"; "Alternatively,"]
        ∧ max_sequence_length p = length (Str.split t).
Proof.
  eexists. split; [reflexivity|].
  apply (max_sequence_length_is_largest DEFAULT_CONFIG). reflexivity.
Defined.

End ThoughtSwitchTest.


(** * Further properties of the token-id variant *)

Section TokenPasses.
Import Random Plugin.

(** X10: the loop of the token-id variant stops in a pass exactly when the
    model proposes the end-of-sequence token, the minimum is reached, and
    the end-think token has been seen before (or is the end-of-sequence
    token itself); the chunks are then left as they are. *)
Theorem stops_exactly_when (p : ThinkDeeperProcessor) (f : Frame) :
  (∃ f', iteration p f = Ok (Stop f')
         ∧ response_chunks f' = response_chunks f)
  ↔ forward (model p) (kv f ++ tokens f) (calls f)
      = Sampled (eos_token_id (model p))
    ∧ min_thinking_tokens (config p) ≤ n_thinking_tokens f
    ∧ (eos_token_id (model p) = self_end_think_token p
       ∨ seen_end_think f = true).
Proof.
  split.
  - intros (f' & (E & SA & M & _)%stop_facts & _). split; [done|]. split; [done|].
    unfold seen_after in SA. destruct (_ =? _) eqn:Q; [left; lia | by right].
  - intros (E & M & D). unfold iteration. rewrite E.
    assert (seen_after p (eos_token_id (model p)) f = true) as SA.
    { unfold seen_after. destruct D as [-> | ->]; [by rewrite Z.eqb_refl|].
      by destruct (_ =? _). }
    unfold must_continue. rewrite SA, Z.eqb_refl, orb_true_r.
    apply Z.ltb_ge in M. rewrite M. cbn. by eexists.
Qed.

(** X11: a sampled token that is neither the end-think token nor the
    end-of-sequence token always goes to the output as it is: its decoded
    text is the new chunk, it alone is fed back to the model, the count
    grows by one, the flag keeps its value and no random number is drawn. *)
Theorem ordinary_token_passes (p : ThinkDeeperProcessor) (f : Frame)
    (next_token : token) :
  forward (model p) (kv f ++ tokens f) (calls f) = Sampled next_token →
  next_token ≠ self_end_think_token p →
  next_token ≠ eos_token_id (model p) →
  ∃ f', iteration p f = Ok (Emitted f')
    ∧ response_chunks f' = response_chunks f ++ [decode (tokenizer p) [next_token]]
    ∧ tokens f' = [next_token]
    ∧ n_thinking_tokens f' = n_thinking_tokens f + 1
    ∧ seen_end_think f' = seen_end_think f
    ∧ gen f' = gen f.
Proof.
  intros E N1 N2. unfold iteration. rewrite E.
  apply Z.eqb_neq in N1, N2. unfold must_continue, seen_after.
  rewrite N1, N2. cbn. by eexists.
Qed.

(** [ordinary_token_passes] at a concrete pass. *)
Lemma ordinary_token_passes_witness :
  ∃ f', iteration (Toy.processor (Toy.with_min 0) Toy.crasher)
          (enter (Toy.processor (Toy.with_min 0) Toy.crasher) "hi" Toy.zeros)
        = Ok (Emitted f')
    ∧ response_chunks f' = [] ++ ["a"]
    ∧ tokens f' = [Toy.char_token "a"]
    ∧ n_thinking_tokens f' = 0 + 1
    ∧ seen_end_think f' = false
    ∧ gen f' = Toy.zeros.
Proof.
  apply (ordinary_token_passes (Toy.processor (Toy.with_min 0) Toy.crasher)
           (enter (Toy.processor (Toy.with_min 0) Toy.crasher) "hi" Toy.zeros)
           (Toy.char_token "a")).
  - vm_compute; reflexivity.
  - vm_compute; discriminate.
  - vm_compute; discriminate.
Defined.

(** X12: a replacement is injected only when the model proposed the
    end-think token or the end-of-sequence token.  A sampled
    end-of-sequence token is never a chunk of the output and never itself
    the input of the next pass: the pass that samples it either stops, with
    the chunks as they were, or appends a replacement phrase and feeds the
    encoding of that phrase to the model (what that encoding holds is the
    tokenizer's affair). *)
Theorem only_markers_replaced (p : ThinkDeeperProcessor) (f : Frame) :
  (∀ f', iteration p f = Ok (Replaced f') →
     forward (model p) (kv f ++ tokens f) (calls f)
       = Sampled (self_end_think_token p)
     ∨ forward (model p) (kv f ++ tokens f) (calls f)
       = Sampled (eos_token_id (model p)))
  ∧ (∀ f', iteration p f = Ok (Emitted f') →
       ∃ next_token,
         forward (model p) (kv f ++ tokens f) (calls f) = Sampled next_token
         ∧ next_token ≠ eos_token_id (model p)
         ∧ tokens f' = [next_token]
         ∧ response_chunks f'
           = response_chunks f ++ [decode (tokenizer p) [next_token]])
  ∧ (∀ fl, forward (model p) (kv f ++ tokens f) (calls f)
             = Sampled (eos_token_id (model p)) →
       iteration p f = Ok fl →
       (∃ f', fl = Stop f' ∧ response_chunks f' = response_chunks f)
       ∨ (∃ f' r, fl = Replaced f'
            ∧ In r (replacements (config p))
            ∧ response_chunks f' = response_chunks f ++ [r]
            ∧ tokens f' = encode (tokenizer p) r)).
Proof.
  assert (∀ f', iteration p f = Ok (Emitted f') →
            ∃ next_token,
              forward (model p) (kv f ++ tokens f) (calls f) = Sampled next_token
              ∧ next_token ≠ eos_token_id (model p)
              ∧ tokens f' = [next_token]
              ∧ response_chunks f'
                = response_chunks f ++ [decode (tokenizer p) [next_token]]) as Em.
  { intros f' H. pose proof H as (next & E & M & C & _ & T & _)%emitted_facts.
    exists next. split; [done|]. split; [|done]. intros ->.
    unfold iteration in H. rewrite E, M in H.
    unfold must_continue in M. rewrite Z.eqb_refl, orb_true_r in M.
    apply orb_false_iff in M as [_ M]. cbn in M.
    apply negb_false_iff in M. rewrite Z.eqb_refl, M in H. cbn in H.
    discriminate. }
  split; [|split; [exact Em|]].
  - intros f' (next & r & E & M & _)%replaced_facts. rewrite E.
    unfold must_continue in M.
    destruct (next =? self_end_think_token p) eqn:Q1;
      [apply Z.eqb_eq in Q1; left; by f_equal|].
    destruct (next =? eos_token_id (model p)) eqn:Q2;
      [apply Z.eqb_eq in Q2; right; by f_equal|]. done.
  - intros [f'|f'|f'] E H.
    + right. apply replaced_facts in H as (next & r & _ & _ & I & C & _ & T & _).
      by exists f', r.
    + left. apply stop_facts in H as (_ & _ & _ & C & _). by exists f'.
    + apply Em in H as (next & E' & N & _). rewrite E in E'.
      injection E' as <-. done.
Qed.

(** [only_markers_replaced] at a pass in which the model proposes the end of
    the sequence before the minimum is reached. *)
Lemma only_markers_replaced_witness :
  ∃ fl, iteration (Toy.processor (Toy.with_min 2) Toy.quitter)
          (enter (Toy.processor (Toy.with_min 2) Toy.quitter) "hi" Toy.zeros)
        = Ok fl
    ∧ ((∃ f', fl = Stop f' ∧ response_chunks f' = [])
       ∨ (∃ f' r, fl = Replaced f'
            ∧ In r (replacements (config (Toy.processor (Toy.with_min 2) Toy.quitter)))
            ∧ response_chunks f' = [] ++ [r]
            ∧ tokens f' = Toy.toy_encode r)).
Proof.
  eexists. split; [vm_compute; reflexivity|].
  eapply (proj2 (proj2 (only_markers_replaced
                          (Toy.processor (Toy.with_min 2) Toy.quitter)
                          (enter (Toy.processor (Toy.with_min 2) Toy.quitter)
                             "hi" Toy.zeros)))).
  - vm_compute; reflexivity.
  - vm_compute; reflexivity.
Defined.

End TokenPasses.

Section TokenRun.
Import Random Plugin.

(** What one pass that stays in the loop does to the context, the counters
    and the flag. *)
Lemma pass_facts (p : ThinkDeeperProcessor) (f f' : Frame) :
  iteration p f = Ok (Replaced f') ∨ iteration p f = Ok (Emitted f') →
  kv f' = kv f ++ tokens f
  ∧ calls f' = S (calls f)
  ∧ n_thinking_tokens f' = n_thinking_tokens f + Z.of_nat (length (tokens f'))
  ∧ length (response_chunks f') = S (length (response_chunks f))
  ∧ (seen_end_think f = true → seen_end_think f' = true).
Proof.
  assert (∀ next, seen_end_think f = true → seen_after p next f = true) as SA.
  { intros next H. unfold seen_after. by destruct (_ =? _). }
  intros [H | H]; unfold iteration in H;
    destruct (forward _ _ _) as [next|e]; try discriminate H;
    destruct (must_continue _ _ _ _).
  - destruct (choice _ _) as [[r g]|e]; [|discriminate H].
    rewrite bind_Ok in H. injection H as <-. cbn.
    rewrite length_app. cbn. repeat split; try done; try lia. apply SA.
  - by destruct (_ && _).
  - by destruct (choice _ _) as [[r g]|e].
  - destruct (_ && _); [discriminate H|]. injection H as <-. cbn.
    rewrite length_app. cbn. repeat split; try done; try lia. apply SA.
Qed.

Lemma passes_facts (p : ThinkDeeperProcessor) (k : nat) (f0 f : Frame) :
  passes p k f0 f →
  calls f = (calls f0 + k)%nat
  ∧ length (response_chunks f) = (length (response_chunks f0) + k)%nat
  ∧ (seen_end_think f0 = true → seen_end_think f = true)
  ∧ ∃ fed, kv f ++ tokens f = (kv f0 ++ tokens f0) ++ fed
      ∧ n_thinking_tokens f = n_thinking_tokens f0 + Z.of_nat (length fed).
Proof.
  intros P. induction P as [f | k f f1 f2 I P IH | k f f1 f2 I P IH].
  - split; [lia|]. split; [lia|]. split; [done|]. exists [].
    rewrite app_nil_r. cbn. split; [done|lia].
  - destruct (pass_facts p f f1 (or_introl I)) as (K & C & N & L & S1).
    destruct IH as (C2 & L2 & S2 & fed & X & N2).
    split; [lia|]. split; [lia|]. split; [auto|].
    exists (tokens f1 ++ fed). rewrite X, K, length_app, <- !app_assoc.
    split; [done|lia].
  - destruct (pass_facts p f f1 (or_intror I)) as (K & C & N & L & S1).
    destruct IH as (C2 & L2 & S2 & fed & X & N2).
    split; [lia|]. split; [lia|]. split; [auto|].
    exists (tokens f1 ++ fed). rewrite X, K, length_app, <- !app_assoc.
    split; [done|lia].
Qed.

(** X13: after [k] passes that stay in the loop, the model has been called
    [k] more times, there are [k] more chunks, the context given to the
    model is the earlier context followed by the tokens fed back since, and
    [n_thinking_tokens] has grown by exactly the number of these tokens;
    the flag [seen_end_think], once set, stays set. *)
Theorem passes_accounting (p : ThinkDeeperProcessor) (k : nat) (f0 f : Frame) :
  passes p k f0 f →
  calls f = (calls f0 + k)%nat
  ∧ length (response_chunks f) = (length (response_chunks f0) + k)%nat
  ∧ (seen_end_think f0 = true → seen_end_think f = true)
  ∧ ∃ fed, kv f ++ tokens f = (kv f0 ++ tokens f0) ++ fed
      ∧ n_thinking_tokens f = n_thinking_tokens f0 + Z.of_nat (length fed).
Proof. apply passes_facts. Qed.

(** [passes_accounting] at a concrete run of two passes. *)
Lemma passes_accounting_witness :
  ∃ f, passes (Toy.processor (Toy.with_min 0) Toy.crasher) 2
         (enter (Toy.processor (Toy.with_min 0) Toy.crasher) "hi" Toy.zeros) f
    ∧ calls f = (0 + 2)%nat
    ∧ length (response_chunks f) = (0 + 2)%nat.
Proof.
  eexists. split.
  - eapply passes_emitted; [vm_compute; reflexivity|].
    eapply passes_emitted; [vm_compute; reflexivity|].
    apply passes_O.
  - match goal with
    | |- context [calls ?f] =>
        destruct (passes_accounting (Toy.processor (Toy.with_min 0) Toy.crasher) 2
                    (enter (Toy.processor (Toy.with_min 0) Toy.crasher) "hi" Toy.zeros) f)
          as (C & L & _)
    end.
    + eapply passes_emitted; [vm_compute; reflexivity|].
      eapply passes_emitted; [vm_compute; reflexivity|].
      apply passes_O.
    + split; [exact C|exact L].
Defined.

Lemma slice_from_split (k : nat) (s : string) :
  ∃ cut, s = cut +:+ Str.slice_from k s
    ∧ String.length cut = Nat.min k (String.length s).
Proof.
  revert s. induction k as [|k IH]; intros s.
  - by exists "".
  - destruct s as [|c s]; [by exists ""|].
    destruct (IH s) as (cut & E & L). exists (String c cut).
    rewrite str_app_cons. cbn. split; [by f_equal|lia].
Qed.

(** X14: the text that [reasoning_effort] returns is the joined chunks with
    their first [prefix_len] characters cut off (all of them when there are
    fewer): the returned text is a suffix of the generated text, and the
    part cut has [min prefix_len (len full_response)] characters. *)
Theorem returned_text_is_suffix (fuel : nat) (p : ThinkDeeperProcessor)
    (question : string) (g : rng) (text : string) :
  reasoning_effort fuel p question g = Some (Ok text) →
  ∃ f cut,
    while_loop fuel p (enter p question g) = Some (Ok f)
    ∧ full_response f = cut +:+ text
    ∧ String.length cut
      = Nat.min (prefix_len p question) (String.length (full_response f)).
Proof.
  unfold reasoning_effort.
  destruct (while_loop fuel p (enter p question g)) as [[f|e]|]; [|done..].
  intros [= <-]. unfold final_response.
  destruct (slice_from_split (prefix_len p question) (full_response f))
    as (cut & E & L).
  by exists f, cut.
Qed.

(** [returned_text_is_suffix] at a concrete run. *)
Lemma returned_text_is_suffix_witness :
  ∃ f cut,
    while_loop 7 (Toy.processor (Toy.with_min 0) Toy.answerer)
      (enter (Toy.processor (Toy.with_min 0) Toy.answerer) "hi" Toy.zeros)
    = Some (Ok f)
    ∧ full_response f = cut +:+ "lo"
    ∧ String.length cut
      = Nat.min (prefix_len (Toy.processor (Toy.with_min 0) Toy.answerer) "hi")
                (String.length (full_response f)).
Proof.
  apply (returned_text_is_suffix 7 (Toy.processor (Toy.with_min 0) Toy.answerer)
           "hi" Toy.zeros "lo").
  vm_compute; reflexivity.
Defined.

(** X15: what [run] returns is either the fallback text of an exception
    with a count of 0, or the text that [reasoning_effort] returned on the
    instance built from the loaded tokenizer and model, with the number of
    tokens of the encoding of that text; a failure to load is reported like
    a failure to generate, for every fuel. *)
Theorem run_outcomes (fuel : nat) (hub : Hub)
    (system_prompt initial_query model_id : string)
    (request_config : option (option RequestConfig)) (g : rng) :
  (∀ text count,
     run fuel hub system_prompt initial_query model_id request_config g
       = Some (text, count) →
     (∃ e, text = fallback e ∧ count = 0)
     ∨ (∃ tk llm p,
          tokenizer_from_pretrained hub model_id = Ok tk
          ∧ model_from_pretrained hub model_id = Ok llm
          ∧ init (resolve_config request_config) tk llm = Ok p
          ∧ reasoning_effort fuel p initial_query g = Some (Ok text)
          ∧ count = Z.of_nat (length (encode tk text))))
  ∧ (∀ e, tokenizer_from_pretrained hub model_id = Raise e
          ∨ (∃ tk, tokenizer_from_pretrained hub model_id = Ok tk
                   ∧ model_from_pretrained hub model_id = Raise e) →
          run fuel hub system_prompt initial_query model_id request_config g
          = Some (fallback e, 0)).
Proof.
  split.
  - intros text count. unfold run, attempt.
    destruct (tokenizer_from_pretrained hub model_id) as [tk|e] eqn:T;
      [|intros [= <- <-]; left; by eexists].
    destruct (model_from_pretrained hub model_id) as [llm|e] eqn:M;
      [|intros [= <- <-]; left; by eexists].
    destruct (init _ tk llm) as [p|e] eqn:I;
      [|intros [= <- <-]; left; by eexists].
    destruct (reasoning_effort fuel p initial_query g) as [[r|e]|] eqn:R;
      [| intros [= <- <-]; left; by eexists | done].
    intros [= <- <-]. right. by exists tk, llm, p.
  - intros e [T | (tk & T & M)]; unfold run, attempt; rewrite T; [done|].
    by rewrite M.
Qed.

(** [run_outcomes] at a concrete run. *)
Lemma run_outcomes_witness :
  (∃ e, "lo" = fallback e ∧ 3 = 0)
  ∨ (∃ tk llm p,
       tokenizer_from_pretrained (Toy.toy_hub Toy.answerer) "m" = Ok tk
       ∧ model_from_pretrained (Toy.toy_hub Toy.answerer) "m" = Ok llm
       ∧ init (resolve_config (Toy.with_min 0)) tk llm = Ok p
       ∧ reasoning_effort 7 p "hi" Toy.zeros = Some (Ok "lo")
       ∧ 3 = Z.of_nat (length (encode tk "lo"))).
Proof.
  apply (proj1 (run_outcomes 7 (Toy.toy_hub Toy.answerer) "" "hi" "m"
                  (Toy.with_min 0) Toy.zeros) "lo" 3).
  vm_compute; reflexivity.
Defined.

End TokenRun.

Section TokenExit.
Import Random Plugin.

(** A loop that exits went through some passes that stayed in the loop and
    then through one pass that stopped. *)
Lemma loop_trace (fuel : nat) (p : ThinkDeeperProcessor) (f0 f : Frame) :
  while_loop fuel p f0 = Some (Ok f) →
  ∃ k f1, (k < fuel)%nat ∧ passes p k f0 f1 ∧ iteration p f1 = Ok (Stop f).
Proof.
  revert f0. induction fuel as [|fuel IH]; intros f0; [done|]. cbn.
  destruct (iteration p f0) as [[f1|f1|f1]|e] eqn:I; [..|done].
  - intros (k & f2 & L & P & St)%IH. exists (S k), f2.
    split; [lia|]. split; [|done]. by eapply passes_replaced.
  - intros [= <-]. exists O, f0. split; [lia|]. split; [constructor|done].
  - intros (k & f2 & L & P & St)%IH. exists (S k), f2.
    split; [lia|]. split; [|done]. by eapply passes_emitted.
Qed.

Lemma stop_context (p : ThinkDeeperProcessor) (f f' : Frame) :
  iteration p f = Ok (Stop f') → kv f' = kv f ++ tokens f.
Proof.
  unfold iteration. destruct (forward _ _ _) as [next|e]; [|done].
  destruct (must_continue _ _ _ _).
  - by destruct (choice _ _) as [[r g]|e].
  - destruct (_ && _); [|done]. by intros [= <-].
Qed.

(** X16: when the loop of [reasoning_effort] exits, the cache holds the
    prompt followed by the tokens fed back, [n_thinking_tokens] is the
    number of these tokens and is at least [min_thinking_tokens], and the
    model has been called once more than there are chunks, fewer times
    than the fuel allows. *)
Theorem exit_accounting (fuel : nat) (p : ThinkDeeperProcessor)
    (question : string) (g : rng) (f : Frame) :
  while_loop fuel p (enter p question g) = Some (Ok f) →
  ∃ fed, kv f = prompt_tokens p question ++ fed
    ∧ n_thinking_tokens f = Z.of_nat (length fed)
    ∧ min_thinking_tokens (config p) ≤ Z.of_nat (length fed)
    ∧ calls f = S (length (response_chunks f))
    ∧ (calls f ≤ fuel)%nat.
Proof.
  intros (k & f1 & L & P & St)%loop_trace.
  apply passes_facts in P as (C & Len & _ & fed & X & N).
  pose proof (stop_context p f1 f St) as K.
  apply stop_facts in St as (_ & _ & M & R & N' & _ & C').
  cbn in *. exists fed. rewrite K, X, N', N, R, C', C, Len.
  split; [done|]. split; [lia|]. split; [lia|]. split; lia.
Qed.

(** [exit_accounting] at a concrete run. *)
Lemma exit_accounting_witness :
  ∃ f fed,
    while_loop 7 (Toy.processor (Toy.with_min 0) Toy.answerer)
      (enter (Toy.processor (Toy.with_min 0) Toy.answerer) "hi" Toy.zeros)
    = Some (Ok f)
    ∧ kv f = prompt_tokens (Toy.processor (Toy.with_min 0) Toy.answerer) "hi" ++ fed
    ∧ n_thinking_tokens f = Z.of_nat (length fed)
    ∧ 0 ≤ Z.of_nat (length fed)
    ∧ calls f = S (length (response_chunks f))
    ∧ (calls f ≤ 7)%nat.
Proof.
  eexists.
  match goal with
  | |- ∃ fed, ?W = Some (Ok ?f) ∧ _ =>
      assert (W = Some (Ok f)) as H by (vm_compute; reflexivity);
      destruct (exit_accounting 7 (Toy.processor (Toy.with_min 0) Toy.answerer)
                  "hi" Toy.zeros f H) as (fed & A);
      exists fed; split; [exact H|exact A]
  end.
Defined.

End TokenExit.

(** * The minimum and the forced end *)

Section MinimumEnforcement.
Import Random.




End MinimumEnforcement.
